(** * ProcessHierarchy: a shallow embedding of [ProcessHierarchy.c]

  The program inspects the process tree through [/proc/<pid>/stat] and
  [readdir] on [/proc], and acts on it with [kill].  The operating system
  is an interface ([ProcOS]); every function of the source is a function
  over a world of that interface.  Reads are pure in the world, [kill] is
  a world transition, and everything the program prints or signals is
  recorded as a trace of events.  A run ends where the program sends
  [SIGKILL] to its own pid: nothing after that call is executed. *)

From Stdlib Require Import ZArith List String Ascii Bool Lia DecimalString.
Import ListNotations.

Local Open Scope string_scope.
Local Open Scope list_scope.
Local Open Scope Z_scope.

(** ** The C library functions the source calls *)

Module LibC.

(** [isdigit] and [isspace] in the C locale. *)
Definition isdigit (c : ascii) : bool :=
  let n := nat_of_ascii c in (48 <=? n)%nat && (n <=? 57)%nat.

Definition isspace (c : ascii) : bool :=
  let n := nat_of_ascii c in
  (n =? 32)%nat || ((9 <=? n)%nat && (n <=? 13)%nat).

Definition digit_value (c : ascii) : Z := Z.of_nat (nat_of_ascii c) - 48.

(** [int] and [long] on LP64: a [long] that does not fit saturates in
    [strtol], and the conversion to [int] keeps the low 32 bits. *)
Definition LONG_MAX : Z := 2 ^ 63 - 1.
Definition LONG_MIN : Z := - 2 ^ 63.

Definition clamp_long (v : Z) : Z := Z.max LONG_MIN (Z.min LONG_MAX v).

Definition to_int (v : Z) : Z := (v + 2 ^ 31) mod 2 ^ 32 - 2 ^ 31.

Fixpoint skip_ws (s : string) : string :=
  match s with
  | String c r => if isspace c then skip_ws r else s
  | EmptyString => s
  end.

(** The run of decimal digits at the head of [s], folded into [acc]. *)
Fixpoint scan_digits (s : string) (acc : Z) : Z * string :=
  match s with
  | String c r =>
      if isdigit c then scan_digits r (10 * acc + digit_value c) else (acc, s)
  | EmptyString => (acc, s)
  end.

(** A decimal integer as [strtol] and the [%d] conversion read it: leading
    white space, an optional sign, at least one digit. *)
Definition scan_long (s : string) : option (Z * string) :=
  let body (neg : bool) (t : string) :=
    match t with
    | String c _ =>
        if isdigit c then
          let '(v, rest) := scan_digits t 0 in
          Some (clamp_long (if neg then - v else v), rest)
        else None
    | EmptyString => None
    end in
  match skip_ws s with
  | String "-" t => body true t
  | String "+" t => body false t
  | t => body false t
  end.

(** [%d]: the value stored in an [int]. *)
Definition scan_int (s : string) : option (Z * string) :=
  match scan_long s with
  | Some (v, rest) => Some (to_int v, rest)
  | None => None
  end.

(** [%*s]: leading white space, then a non-empty run of characters that
    are not white space, read and dropped. *)
Fixpoint skip_token (s : string) : string :=
  match s with
  | String c r => if isspace c then s else skip_token r
  | EmptyString => s
  end.

Definition scan_skip_string (s : string) : option string :=
  match skip_ws s with
  | String c r => Some (skip_token r)
  | EmptyString => None
  end.

(** [%c]: the next character, white space included. *)
Definition scan_char (s : string) : option (ascii * string) :=
  match s with
  | String c r => Some (c, r)
  | EmptyString => None
  end.

(** [atoi]: [(int) strtol (s, NULL, 10)], 0 when no digits are there. *)
Definition atoi (s : string) : Z :=
  match scan_long s with
  | Some (v, _) => to_int v
  | None => 0
  end.

(** [strcmp (a, b) == 0]. *)
Definition streq (a b : string) : bool := String.eqb a b.

End LibC.

(** Signal numbers of [<signal.h>] on Linux. *)
Definition SIGKILL : Z := 9.
Definition SIGCONT : Z := 18.
Definition SIGSTOP : Z := 19.

(** ** The operating system *)

(** What [opendir ("/proc")] followed by [readdir] until [NULL] gives: the
  [d_name] of every entry in the order [readdir] returns them, or the
  [errno] of a failed [opendir]. *)
Inductive dir_result : Type :=
| DirEntries (names : list string)
| DirError (errnum : Z).

(** The system calls of the program.  [fopen_stat w p] is the content of
  [/proc/p/stat] in world [w], [None] when [fopen] fails.  [sys_kill w p s]
  is [kill (p, s)]: [None] for the return value 0 and [Some errno] for -1,
  with the world the call leaves behind.  [getpid] is the pid of the
  program itself, the same for the whole run; the source never asks for
  it, but a [SIGKILL] that the program sends to this pid ends the run. *)
Class ProcOS (World : Type) : Type := {
opendir_proc : World -> dir_result;
fopen_stat : World -> Z -> option string;
sys_kill : World -> Z -> Z -> option Z * World;
getpid : Z
}.

(** ** Output and signals as a trace *)

Inductive stream : Type := Stdout | Stderr.

(** Arguments of a [printf] format: an [int], a string, the text
  [strerror] gives for an [errno], and the buffer a [snprintf] with
  integer arguments filled. *)
Inductive farg : Type :=
| AInt (z : Z)
| AStr (s : string)
| AStrerror (errnum : Z)
| ASnprintf (fmt : string) (args : list Z).

Inductive event : Type :=
| Printf (out : stream) (fmt : string) (args : list farg)
| Kill (pid : Z) (sig : Z).

Definition trace : Type := list event.

(** [print_error]. *)
Definition print_error (msg : farg) (errnum : Z) : trace :=
[Printf Stderr "Error: %s: %s\n" [msg; AStrerror errnum]].

(** ** Process records *)

Record ProcessInfo : Type := mkInfo {
pid : Z;
ppid : Z;
state : ascii
}.

Definition blank_info : ProcessInfo := mkInfo 0 0 " ".

Definition set_pid (i : ProcessInfo) (v : Z) : ProcessInfo :=
mkInfo v (ppid i) (state i).
Definition set_state (i : ProcessInfo) (c : ascii) : ProcessInfo :=
mkInfo (pid i) (ppid i) c.
Definition set_ppid (i : ProcessInfo) (v : Z) : ProcessInfo :=
mkInfo (pid i) v (state i).

(** [fscanf (fp, "%d %*s %c %d", &info.pid, &info.state, &info.ppid)]: the
  record with the fields the conversions stored before the first one that
  failed, and the number of fields stored.  A blank in the format skips
  white space. *)
Definition fscanf_stat (content : string) (info : ProcessInfo)
: Z * ProcessInfo :=
match LibC.scan_int content with
| None => (0, info)
| Some (p, r1) =>
    let info := set_pid info p in
    match LibC.scan_skip_string (LibC.skip_ws r1) with
    | None => (1, info)
    | Some r2 =>
        match LibC.scan_char (LibC.skip_ws r2) with
        | None => (1, info)
        | Some (c, r3) =>
            let info := set_state info c in
            match LibC.scan_int (LibC.skip_ws r3) with
            | None => (2, info)
            | Some (pp, _) => (3, set_ppid info pp)
            end
        end
    end
end.

Section Program.

Context {World : Type} {OS : ProcOS World}.

(** [get_process_info]: both exits of the source return [info] as the
    conversions left it. *)
Definition get_process_info (w : World) (p : Z) : ProcessInfo :=
  let info := blank_info in
  match fopen_stat w p with
  | None => info
  | Some content =>
      let '(n, info) := fscanf_stat content info in
      if negb (n =? 3) then info else info
  end.

(** *** [is_in_tree] *)

(** The loop of [is_in_tree].  [fuel] is the number of times the test
    [iterations++ < 1000] can still succeed.  The second component lists
    the pids handed to [get_process_info], in order. *)
Fixpoint is_in_tree_loop (w : World) (root_pid : Z) (fuel : nat)
    (current : Z) : bool * list Z :=
  if current =? 0 then (false, [])
  else
    match fuel with
    | O => (false, [])
    | S fuel' =>
        if current =? root_pid then (true, [])
        else
          let info := get_process_info w current in
          let '(r, reads) := is_in_tree_loop w root_pid fuel' (ppid info) in
          (r, current :: reads)
    end.

Definition MAX_ITERATIONS : nat := 1000.

Definition is_in_tree_run (w : World) (root_pid target_pid : Z)
  : bool * list Z :=
  if root_pid =? target_pid then (true, [])
  else
    let info := get_process_info w target_pid in
    if pid info =? 0 then (false, [target_pid])
    else
      let '(r, reads) :=
        is_in_tree_loop w root_pid MAX_ITERATIONS (ppid info) in
      (r, target_pid :: reads).

Definition is_in_tree (w : World) (root_pid target_pid : Z) : bool :=
  fst (is_in_tree_run w root_pid target_pid).

(** The pids whose record one call of [is_in_tree] reads. *)
Definition is_in_tree_reads (w : World) (root_pid target_pid : Z) : list Z :=
  snd (is_in_tree_run w root_pid target_pid).


(** *** Scanning [/proc] *)

(** The test [isdigit] on the first character of [d_name]. *)
Definition is_numeric_entry (d_name : string) : bool :=
  match d_name with
  | String c _ => LibC.isdigit c
  | EmptyString => false
  end.

(** The values [curr_pid] takes in a [readdir] loop: the entries that pass
    the [isdigit] test, through [atoi], in directory order. *)
Definition proc_pids (names : list string) : list Z :=
  map LibC.atoi (filter is_numeric_entry names).

Definition is_zombie (info : ProcessInfo) : bool := Ascii.eqb (state info) "Z".
Definition is_stopped (info : ProcessInfo) : bool := Ascii.eqb (state info) "T".

Definition print_pid (p : Z) : trace := [Printf Stdout "%d\n" [AInt p]].

Definition proc_dir_error (errnum : Z) : trace :=
  print_error (AStr "Cannot access /proc directory") errnum.

(** [print_basic_info]. *)
Definition print_basic_info (w : World) (target : Z) : trace :=
  let info := get_process_info w target in
  if pid info =? 0 then
    [Printf Stderr "Error: Cannot get information for process %d\n"
       [AInt target]]
  else [Printf Stdout "PID: %d, PPID: %d\n" [AInt (pid info); AInt (ppid info)]].

(** [count_defunct_descendants]: the loop over the directory, then the
    function with its return value (-1 when [/proc] cannot be opened). *)
Definition count_defunct_loop (w : World) (target : Z) (pids : list Z) : Z :=
  fold_left
    (fun count curr_pid =>
       let info := get_process_info w curr_pid in
       if pid info =? 0 then count
       else if is_in_tree w target curr_pid && is_zombie info then count + 1
       else count)
    pids 0.

Definition count_defunct_descendants (w : World) (target : Z) : trace * Z :=
  match opendir_proc w with
  | DirError e => (proc_dir_error e, -1)
  | DirEntries names => ([], count_defunct_loop w target (proc_pids names))
  end.

(** [list_non_direct_descendants]. *)
Definition list_non_direct_descendants (w : World) (target parent : Z)
  : trace :=
  match opendir_proc w with
  | DirError e => proc_dir_error e
  | DirEntries names =>
      flat_map
        (fun curr_pid =>
           let info := get_process_info w curr_pid in
           if pid info =? 0 then []
           else if is_in_tree w target curr_pid
                   && negb (ppid info =? parent)
                   && negb (curr_pid =? target)
                then print_pid curr_pid
                else [])
        (proc_pids names)
  end.

(** [list_immediate_descendants]. *)
Definition list_immediate_descendants (w : World) (target : Z) : trace :=
  match opendir_proc w with
  | DirError e => proc_dir_error e
  | DirEntries names =>
      flat_map
        (fun curr_pid =>
           let info := get_process_info w curr_pid in
           if pid info =? 0 then []
           else if ppid info =? target then print_pid curr_pid
                else [])
        (proc_pids names)
  end.

(** [list_siblings]. *)
Definition list_siblings (w : World) (target : Z) : trace :=
  let info := get_process_info w target in
  if pid info =? 0 then
    [Printf Stderr "Error: Cannot get information for process %d\n"
       [AInt target]]
  else
    match opendir_proc w with
    | DirError e => proc_dir_error e
    | DirEntries names =>
        flat_map
          (fun curr_pid =>
             if curr_pid =? target then []
             else
               let curr_info := get_process_info w curr_pid in
               if ppid curr_info =? ppid info then print_pid curr_pid
               else [])
          (proc_pids names)
    end.

(** [list_defunct_siblings]. *)
Definition list_defunct_siblings (w : World) (target : Z) : trace :=
  let info := get_process_info w target in
  if pid info =? 0 then
    [Printf Stderr "Error: Cannot get information for process %d\n"
       [AInt target]]
  else
    match opendir_proc w with
    | DirError e => proc_dir_error e
    | DirEntries names =>
        flat_map
          (fun curr_pid =>
             if curr_pid =? target then []
             else
               let curr_info := get_process_info w curr_pid in
               if (ppid curr_info =? ppid info) && is_zombie curr_info
               then print_pid curr_pid
               else [])
          (proc_pids names)
    end.

(** [list_defunct_descendants]. *)
Definition list_defunct_descendants (w : World) (target : Z) : trace :=
  match opendir_proc w with
  | DirError e => proc_dir_error e
  | DirEntries names =>
      flat_map
        (fun curr_pid =>
           let info := get_process_info w curr_pid in
           if pid info =? 0 then []
           else if is_in_tree w target curr_pid
                   && is_zombie info
                   && negb (curr_pid =? target)
                then print_pid curr_pid
                else [])
        (proc_pids names)
  end.

(** [list_grandchildren]: the outer loop stops when the inner [opendir]
    fails. *)
Fixpoint list_grandchildren_loop (w : World) (target : Z) (pids : list Z)
  : trace :=
  match pids with
  | [] => []
  | child_pid :: rest =>
      let child_info := get_process_info w child_pid in
      if negb (ppid child_info =? target) then
        list_grandchildren_loop w target rest
      else
        match opendir_proc w with
        | DirError e =>
            print_error
              (AStr "Cannot access /proc directory for grandchildren") e
        | DirEntries names2 =>
            flat_map
              (fun grand_pid =>
                 if ppid (get_process_info w grand_pid) =? child_pid
                 then print_pid grand_pid
                 else [])
              (proc_pids names2)
            ++ list_grandchildren_loop w target rest
        end
  end.

Definition list_grandchildren (w : World) (target : Z) : trace :=
  match opendir_proc w with
  | DirError e => proc_dir_error e
  | DirEntries names => list_grandchildren_loop w target (proc_pids names)
  end.

(** [print_status]. *)
Definition print_status (w : World) (target : Z) : trace :=
  let info := get_process_info w target in
  if pid info =? 0 then
    [Printf Stderr "Error: Cannot get status for process %d\n" [AInt target]]
  else
    [Printf Stdout "Process %d is %s\n"
       [AInt target;
        AStr (if is_zombie info then "Defunct" else "Not Defunct")]].

(** *** Actions: the state of the world and the trace *)

(** A computation that may signal: from a world, a result, the world it
    leaves and what it printed and signalled.  The result is [None] when
    the run has ended inside the computation: the program was killed by a
    signal it sent to itself, and nothing after that call is executed. *)
Definition Act (A : Type) : Type := World -> option A * World * trace.

Definition ret {A : Type} (a : A) : Act A := fun w => (Some a, w, []).

Definition bind {A B : Type} (c : Act A) (k : A -> Act B) : Act B :=
  fun w =>
    let '(r, w1, t1) := c w in
    match r with
    | Some a => let '(b, w2, t2) := k a w1 in (b, w2, t1 ++ t2)
    | None => (None, w1, t1)
    end.

(** A read of the current world. *)
Definition observe {A : Type} (f : World -> A) : Act A :=
  fun w => (Some (f w), w, []).

Definition emit (t : trace) : Act unit := fun w => (Some tt, w, t).

(** [kill (p, sig)]: the call is recorded whatever it returns.  A process
    may always signal itself, and [SIGKILL] cannot be caught: the call
    [kill (getpid (), SIGKILL)] does not return, the run ends there.  Every
    other call returns 0 or -1 as the system decides. *)
Definition kill (p sig : Z) : Act (option Z) :=
  fun w =>
    let '(r, w') := sys_kill w p sig in
    if (p =? getpid) && (sig =? SIGKILL) then (None, w', [Kill p sig])
    else (Some r, w', [Kill p sig]).

Notation "x <- c ;; k" := (bind c (fun x => k))
  (at level 61, c at next level, right associativity).
Notation "c ;;; k" := (bind c (fun _ => k))
  (at level 61, right associativity).

(** A loop over the directory entries that carries a value. *)
Fixpoint foldA {A S : Type} (body : S -> A -> Act S) (s : S) (l : list A)
  : Act S :=
  match l with
  | [] => ret s
  | x :: rest => s' <- body s x ;; foldA body s' rest
  end.

Definition forA {A : Type} (l : list A) (body : A -> Act unit) : Act unit :=
  foldA (fun _ x => body x) tt l.

(** The value a computation returned, [None] when the run ended in it;
    the world it left; what it printed and signalled. *)
Definition result_of {A : Type} (r : option A * World * trace) : option A :=
  fst (fst r).
Definition world_of {A : Type} (r : option A * World * trace) : World :=
  snd (fst r).
Definition trace_of {A : Type} (r : option A * World * trace) : trace :=
  snd r.

(** [kill_zombie_parents]: one turn of the loop, with [killed_any]. *)
Definition kill_zombie_parents_body (target : Z) (killed_any : bool)
    (curr_pid : Z) : Act bool :=
  info <- observe (fun w => get_process_info w curr_pid) ;;
  in_tree <- observe (fun w => is_in_tree w target curr_pid) ;;
  if (pid info =? 0) || negb in_tree then ret killed_any
  else if is_zombie info && negb (ppid info =? 0) then
    let parent_to_kill := ppid info in
    r <- kill parent_to_kill SIGKILL ;;
    match r with
    | Some errnum =>
        emit (print_error
                (ASnprintf "Failed to kill parent %d of zombie %d"
                   [parent_to_kill; curr_pid]) errnum) ;;;
        ret killed_any
    | None =>
        emit [Printf Stdout "Killed parent %d of zombie process %d\n"
                [AInt parent_to_kill; AInt curr_pid]] ;;;
        ret true
    end
  else ret killed_any.

Definition kill_zombie_parents (target : Z) : Act unit :=
  dir <- observe opendir_proc ;;
  match dir with
  | DirError e => emit (proc_dir_error e)
  | DirEntries names =>
      killed_any <-
        foldA (kill_zombie_parents_body target) false (proc_pids names) ;;
      if negb killed_any then
        emit [Printf Stdout
                "No zombie processes found among descendants of %d\n"
                [AInt target]]
      else ret tt
  end.

(** *** [kill_descendants] *)

(** The size of the [descendants] array. *)
Definition MAX_DESCENDANTS : Z := 1024.

Definition overflow_warning : trace :=
  [Printf Stderr "Warning: Too many descendants; some may be missed\n" []].

(** First pass.  [descendants] is the filled part of the array, so that
    [descendant_count] is its length; the loop ends at the [break]. *)
Fixpoint collect_descendants (w : World) (target : Z) (pids : list Z)
    (descendants : list Z) : list Z * trace :=
  match pids with
  | [] => (descendants, [])
  | curr_pid :: rest =>
      let info := get_process_info w curr_pid in
      if pid info =? 0 then collect_descendants w target rest descendants
      else if is_in_tree w target curr_pid && negb (curr_pid =? target) then
        if Z.of_nat (List.length descendants) <? MAX_DESCENDANTS then
          collect_descendants w target rest (descendants ++ [curr_pid])
        else (descendants, overflow_warning)
      else collect_descendants w target rest descendants
  end.

(** Second pass: [i] runs from [descendant_count - 1] down to 0. *)
Definition kill_collected (descendants : list Z) : Act unit :=
  forA (rev descendants)
    (fun curr_pid =>
       r <- kill curr_pid SIGKILL ;;
       match r with
       | Some errnum =>
           emit (print_error
                   (ASnprintf "Failed to kill descendant %d" [curr_pid])
                   errnum)
       | None => emit [Printf Stdout "Killed descendant %d\n" [AInt curr_pid]]
       end).

(** One turn of the loop of the second scan, with [missed]. *)
Definition rescan_body (target : Z) (missed : Z) (curr_pid : Z) : Act Z :=
  info <- observe (fun w => get_process_info w curr_pid) ;;
  if pid info =? 0 then ret missed
  else
    in_tree <- observe (fun w => is_in_tree w target curr_pid) ;;
    if in_tree && negb (curr_pid =? target) then
      r <- kill curr_pid SIGKILL ;;
      match r with
      | Some errnum =>
          emit (print_error
                  (ASnprintf "Failed to kill missed descendant %d" [curr_pid])
                  errnum) ;;;
          ret (missed + 1)
      | None =>
          emit [Printf Stdout "Killed missed descendant %d\n" [AInt curr_pid]]
          ;;; ret (missed + 1)
      end
    else ret missed.

Definition rescan_descendants (target : Z) : Act unit :=
  dir <- observe opendir_proc ;;
  match dir with
  | DirError _ => ret tt
  | DirEntries names =>
      missed <- foldA (rescan_body target) 0 (proc_pids names) ;;
      if missed >? 0 then
        emit [Printf Stderr
                "Note: %d descendants were missed in first pass and killed in second\n"
                [AInt missed]]
      else ret tt
  end.

Definition kill_descendants (target : Z) : Act unit :=
  dir <- observe opendir_proc ;;
  match dir with
  | DirError e => emit (proc_dir_error e)
  | DirEntries names =>
      collected <-
        observe (fun w => collect_descendants w target (proc_pids names) []) ;;
      let '(descendants, warning) := collected in
      emit warning ;;;
      kill_collected descendants ;;;
      rescan_descendants target
  end.

(** *** [stop_descendants] and [continue_descendants] *)

Definition stop_descendants (target : Z) : Act unit :=
  dir <- observe opendir_proc ;;
  match dir with
  | DirError e => emit (proc_dir_error e)
  | DirEntries names =>
      forA (proc_pids names)
        (fun curr_pid =>
           info <- observe (fun w => get_process_info w curr_pid) ;;
           if pid info =? 0 then ret tt
           else
             in_tree <- observe (fun w => is_in_tree w target curr_pid) ;;
             if in_tree && negb (curr_pid =? target) then
               r <- kill curr_pid SIGSTOP ;;
               match r with
               | Some errnum =>
                   emit (print_error
                           (AStr "Failed to stop descendant process") errnum)
               | None =>
                   emit [Printf Stdout "Stopped descendant %d\n"
                           [AInt curr_pid]]
               end
             else ret tt)
  end.

Definition continue_descendants (target : Z) : Act unit :=
  dir <- observe opendir_proc ;;
  match dir with
  | DirError e => emit (proc_dir_error e)
  | DirEntries names =>
      forA (proc_pids names)
        (fun curr_pid =>
           info <- observe (fun w => get_process_info w curr_pid) ;;
           if pid info =? 0 then ret tt
           else
             in_tree <- observe (fun w => is_in_tree w target curr_pid) ;;
             if in_tree && negb (curr_pid =? target) && is_stopped info then
               r <- kill curr_pid SIGCONT ;;
               match r with
               | Some errnum =>
                   emit (print_error
                           (AStr "Failed to continue descendant process")
                           errnum)
               | None =>
                   emit [Printf Stdout "Continued descendant %d\n"
                           [AInt curr_pid]]
               end
             else ret tt)
  end.

(** *** [main] *)

(** The branch of [main] for each option; the result is the exit code. *)
Definition run_option (root_pid target_pid : Z) (option : string) : Act Z :=
  if LibC.streq option "-dc" then
    r <- observe (fun w => count_defunct_descendants w target_pid) ;;
    let '(t, count) := r in
    emit t ;;;
    (if count >=? 0 then
       emit [Printf Stdout "Number of defunct descendants: %d\n" [AInt count]]
     else ret tt) ;;;
    ret 0
  else if LibC.streq option "-ds" then
    t <- observe (fun w => list_non_direct_descendants w target_pid target_pid)
    ;; emit t ;;; ret 0
  else if LibC.streq option "-id" then
    t <- observe (fun w => list_immediate_descendants w target_pid) ;;
    emit t ;;; ret 0
  else if LibC.streq option "-lg" then
    t <- observe (fun w => list_siblings w target_pid) ;; emit t ;;; ret 0
  else if LibC.streq option "-lz" then
    t <- observe (fun w => list_defunct_siblings w target_pid) ;;
    emit t ;;; ret 0
  else if LibC.streq option "-df" then
    t <- observe (fun w => list_defunct_descendants w target_pid) ;;
    emit t ;;; ret 0
  else if LibC.streq option "-gc" then
    t <- observe (fun w => list_grandchildren w target_pid) ;; emit t ;;; ret 0
  else if LibC.streq option "-do" then
    t <- observe (fun w => print_status w target_pid) ;; emit t ;;; ret 0
  else if LibC.streq option "--pz" then kill_zombie_parents target_pid ;;; ret 0
  else if LibC.streq option "-sk" then kill_descendants target_pid ;;; ret 0
  else if LibC.streq option "-st" then stop_descendants target_pid ;;; ret 0
  else if LibC.streq option "-dt" then continue_descendants target_pid ;;; ret 0
  else if LibC.streq option "-rp" then
    r <- kill root_pid SIGKILL ;;
    match r with
    | Some errnum =>
        emit (print_error (AStr "Failed to kill root process") errnum)
    | None =>
        emit [Printf Stdout "Root process %d terminated successfully\n"
                [AInt root_pid]]
    end ;;;
    ret 0
  else
    emit [Printf Stderr "Error: Invalid option '%s'\n" [AStr option];
          Printf Stderr
            "Valid options: -dc, -ds, -id, -lg, -lz, -df, -gc, -do, --pz, -sk, -st, -dt, -rp\n"
            []] ;;;
    ret 1.

(** [main]: [argv] is the argument vector, [argc] its length. *)
Definition main (argv : list string) : Act Z :=
  let argc := Z.of_nat (List.length argv) in
  let arg (i : nat) := nth i argv "" in
  if (argc <? 3) || (argc >? 4) then
    emit [Printf Stderr "Error: Incorrect number of arguments\n" [];
          Printf Stderr "Usage: %s [root_process] [process_id] [Option]\n"
            [AStr (arg 0%nat)];
          Printf Stderr "Example: %s 1234 5678 -id\n" [AStr (arg 0%nat)]] ;;;
    ret 1
  else
    let root_pid := LibC.atoi (arg 1%nat) in
    let target_pid := LibC.atoi (arg 2%nat) in
    let option := if argc =? 4 then Some (arg 3%nat) else None in
    if (root_pid <=? 0) || (target_pid <=? 0) then
      emit [Printf Stderr "Error: Process IDs must be positive integers\n" [];
            Printf Stderr "Got root_pid=%d, target_pid=%d\n"
              [AInt root_pid; AInt target_pid]] ;;;
      ret 1
    else
      root_info <- observe (fun w => get_process_info w root_pid) ;;
      if pid root_info =? 0 then
        emit [Printf Stderr
                "Error: Root process %d does not exist or is inaccessible\n"
                [AInt root_pid]] ;;;
        ret 1
      else
        in_tree <- observe (fun w => is_in_tree w root_pid target_pid) ;;
        if negb in_tree then
          match option with
          | Some _ =>
              emit [Printf Stdout
                      "Notice: Process %d does not belong to the tree rooted at %d\n"
                      [AInt target_pid; AInt root_pid]] ;;;
              ret 0
          | None => ret 0
          end
        else
          match option with
          | None =>
              t <- observe (fun w => print_basic_info w target_pid) ;;
              emit t ;;; ret 0
          | Some opt => run_option root_pid target_pid opt
          end.

End Program.

(** ** What a trace shows *)

(** The pid of a line [printf ("%d\n", p)] on the standard output. *)
Definition printed_pid (e : event) : option Z :=
  match e with
  | Printf Stdout fmt [AInt p] =>
      if String.eqb fmt "%d\n" then Some p else None
  | _ => None
  end.

(** The pids a listing printed, in order. *)
Definition stdout_pids (t : trace) : list Z :=
  flat_map
    (fun e => match printed_pid e with Some p => [p] | None => [] end) t.

(** The calls of [kill] of a trace, in order, as (pid, signal). *)
Definition signals (t : trace) : list (Z * Z) :=
  flat_map
    (fun e => match e with Kill p sig => [(p, sig)] | Printf _ _ _ => [] end) t.

Definition is_stderr_print (e : event) : Prop :=
  match e with
  | Printf Stderr _ _ => True
  | _ => False
  end.

(** ** The relations the specification names *)

Section Relations.

Context {World : Type} {OS : ProcOS World}.

(** A fetch fails when the record comes back with pid 0. *)
Definition fetch_fails (w : World) (p : Z) : Prop :=
  pid (get_process_info w p) = 0.

(** The parent link of [p]: the parent pid of the record read for [p]. *)
Definition parent_link (w : World) (p : Z) : Z :=
  ppid (get_process_info w p).

(** The ancestor chain that starts at [p] and follows parent links: it ends
    where the link is pid 0 (no further parent), and after [hops] links. *)
Fixpoint ancestor_chain (w : World) (hops : nat) (p : Z) : list Z :=
  p :: match hops with
       | O => []
       | S h =>
           let q := parent_link w p in
           if q =? 0 then [] else ancestor_chain w h q
       end.

(** The test of the first pass of [kill_descendants] on one entry. *)
Definition is_listed_descendant (w : World) (target : Z) (curr_pid : Z)
  : bool :=
  negb (pid (get_process_info w curr_pid) =? 0)
  && is_in_tree w target curr_pid
  && negb (curr_pid =? target).

(** The test of [count_defunct_descendants] on one entry. *)
Definition is_counted_zombie (w : World) (target : Z) (curr_pid : Z) : bool :=
  negb (pid (get_process_info w curr_pid) =? 0)
  && is_in_tree w target curr_pid
  && is_zombie (get_process_info w curr_pid).

(** Disjointness of the two listings, as the specification states it. *)
Definition grandchildren_children_disjoint (w : World) (t : Z) : Prop :=
  forall p,
    In p (stdout_pids (list_grandchildren w t)) ->
    ~ In p (stdout_pids (list_immediate_descendants w t)).

(** No failed fetch among the siblings listed. *)
Definition siblings_omit_failed_fetches (w : World) (t : Z) : Prop :=
  forall p, In p (stdout_pids (list_siblings w t)) -> ~ fetch_fails w p.

(** A call of [kill] that ends the run: [SIGKILL] on the program's own
    pid. *)
Definition own_kill (call : Z * Z) : bool :=
  (fst call =? getpid) && (snd call =? SIGKILL).

(** The calls a run makes out of the calls it is about to make, in this
    order: it stops after the first one that ends the run. *)
Fixpoint until_own_kill (calls : list (Z * Z)) : list (Z * Z) :=
  match calls with
  | [] => []
  | call :: rest =>
      call :: (if own_kill call then [] else until_own_kill rest)
  end.

(** A run that has ended has ended in a [SIGKILL] on the program's own
    pid, the last event of its trace. *)
Definition ended_by_own_kill {A : Type} (r : option A * World * trace)
  : Prop :=
  result_of r = None -> exists t0, trace_of r = t0 ++ [Kill getpid SIGKILL].

(** Two worlds with the same process tree: every fetch gives the same pid
    and the same parent pid. *)
Definition same_links (w1 w2 : World) : Prop :=
  forall q,
    pid (get_process_info w1 q) = pid (get_process_info w2 q) /\
    ppid (get_process_info w1 q) = ppid (get_process_info w2 q).

(** A signal whose delivery, or failure, leaves the process tree as it is:
    it may change the state of a process, not its pid or parent pid. *)
Definition signal_keeps_links (sig : Z) : Prop :=
  forall (w : World) (p : Z), same_links (snd (sys_kill w p sig)) w.

End Relations.

(** The options of [main] that call [kill]. *)
Definition signal_options : list string :=
  ["--pz"; "-sk"; "-st"; "-dt"; "-rp"].

(** The closing line of the second scan of [kill_descendants], for a count
    [n] of missed descendants. *)
Definition missed_note (n : Z) : trace :=
  if n >? 0 then
    [Printf Stderr
       "Note: %d descendants were missed in first pass and killed in second\n"
       [AInt n]]
  else [].

(** The line [kill_zombie_parents] prints after a call of [kill] that
    succeeded. *)
Definition is_killed_parent_line (e : event) : bool :=
  match e with
  | Printf Stdout fmt _ =>
      String.eqb fmt "Killed parent %d of zombie process %d\n"
  | _ => false
  end.

(** The two lines [main] prints for an option it does not know. *)
Definition invalid_option_lines (opt : string) : trace :=
  [Printf Stderr "Error: Invalid option '%s'\n" [AStr opt];
   Printf Stderr
     "Valid options: -dc, -ds, -id, -lg, -lz, -df, -gc, -do, --pz, -sk, -st, -dt, -rp\n"
     []].

(** The options [main] accepts. *)
Definition valid_options : list string :=
  ["-dc"; "-ds"; "-id"; "-lg"; "-lz"; "-df"; "-gc"; "-do"] ++ signal_options.

(** ** A simulated system for concrete runs *)

Module Sim.

(** The entries of [/proc], the content of each [stat] file, and the pids
    the caller may not signal. *)
Record world : Type := mkWorld {
  entries : list string;
  files : Z -> option string;
  denied : Z -> bool
}.

Definition EPERM : Z := 1.
Definition ESRCH : Z := 3.

(** A delivered [SIGKILL] removes the process: its [stat] file and its
    directory entry are gone. *)
Definition remove (w : world) (p : Z) : world :=
  mkWorld
    (filter (fun name => negb (is_numeric_entry name && (LibC.atoi name =? p)))
       (entries w))
    (fun q => if q =? p then None else files w q)
    (denied w).

Definition sim_kill (w : world) (p sig : Z) : option Z * world :=
  match files w p with
  | None => (Some ESRCH, w)
  | Some _ =>
      if denied w p then (Some EPERM, w)
      else if sig =? SIGKILL then (None, remove w p)
      else (None, w)
  end.

(** The simulated system as the program sees it when it runs as pid
    [self]. *)
Definition os (self : Z) : ProcOS world := {|
  opendir_proc w := DirEntries (entries w);
  fopen_stat w p := files w p;
  sys_kill := sim_kill;
  getpid := self
|}.

(** Unless said otherwise the program runs as pid 9000, a process that is
    not among those the simulated directory lists. *)
#[global] Instance sim_os : ProcOS world := os 9000.

Definition itoa (z : Z) : string := NilZero.string_of_int (Z.to_int z).

(** A line of [/proc/<pid>/stat] as the kernel writes it: pid, the command
    name in parentheses, the state, the parent pid, and further fields. *)
Definition stat_line (p : Z) (comm : string) (st : string) (pp : Z) : string :=
  (itoa p ++ " (" ++ comm ++ ") " ++ st ++ " " ++ itoa pp ++ " "
   ++ itoa p ++ " " ++ itoa p ++ " 0 -1 4194560 0 0")%string.

Fixpoint lookup (table : list (Z * string)) (p : Z) : option string :=
  match table with
  | [] => None
  | (q, s) :: rest => if q =? p then Some s else lookup rest p
  end.

Definition other_entries : list string :=
  ["."; ".."; "cpuinfo"; "self"; "sys"; "uptime"].

Definition nobody_denied : Z -> bool := fun _ => false.

(** Target 100 under init with children 101 and 102, 102 a zombie, and 103
    the child of 101. *)
Definition family_table : list (Z * string) :=
  [(1, stat_line 1 "systemd" "S" 0);
   (100, stat_line 100 "bash" "S" 1);
   (101, stat_line 101 "make" "S" 100);
   (102, stat_line 102 "cc1" "Z" 100);
   (103, stat_line 103 "sh" "R" 101);
   (200, stat_line 200 "sshd" "S" 1)].

Definition family : world :=
  mkWorld (other_entries ++ map (fun e => itoa (fst e)) family_table)
    (lookup family_table) nobody_denied.

(** The same system when the caller may not signal 101, and 103 has become
    a zombie. *)
Definition guarded_table : list (Z * string) :=
  [(1, stat_line 1 "systemd" "S" 0);
   (100, stat_line 100 "bash" "S" 1);
   (101, stat_line 101 "sudo" "S" 100);
   (103, stat_line 103 "sh" "Z" 101)].

Definition guarded : world :=
  mkWorld (other_entries ++ map (fun e => itoa (fst e)) guarded_table)
    (lookup guarded_table) (fun p => p =? 101).

(** Process 500 has set its command name to [a S 500]. *)
Definition renamed_table : list (Z * string) :=
  [(1, stat_line 1 "systemd" "S" 0);
   (500, stat_line 500 "a S 500" "S" 1);
   (501, stat_line 501 "sleep" "S" 500)].

Definition renamed : world :=
  mkWorld (other_entries ++ map (fun e => itoa (fst e)) renamed_table)
    (lookup renamed_table) nobody_denied.

(** Entry 4242 is listed by [readdir], but the process is gone when its
    [stat] file is opened. *)
Definition racy_table : list (Z * string) :=
  [(1, stat_line 1 "systemd" "S" 0);
   (2, stat_line 2 "kthreadd" "S" 0);
   (100, stat_line 100 "bash" "S" 1)].

Definition racy : world :=
  mkWorld (other_entries ++ ["1"; "2"; "100"; "4242"])
    (lookup racy_table) nobody_denied.

(** Process 10 with 1030 children, pids 1000 to 2029. *)
Definition crowd_pids : list Z := map (fun i => 1000 + Z.of_nat i) (seq 0 1030).

Definition crowd : world :=
  mkWorld (other_entries ++ ["1"; "10"] ++ map itoa crowd_pids)
    (fun p =>
       if p =? 1 then Some (stat_line 1 "systemd" "S" 0)
       else if p =? 10 then Some (stat_line 10 "forkd" "S" 1)
       else if (1000 <=? p) && (p <? 2030) then
         Some (stat_line p "worker" "S" 10)
       else None)
    nobody_denied.

(** The family again, with the program itself in the directory: it was
    started from the shell 100 and runs as pid 104. *)
Definition launched_table : list (Z * string) :=
  family_table ++ [(104, stat_line 104 "prog" "R" 100)].

Definition launched : world :=
  mkWorld (other_entries ++ map (fun e => itoa (fst e)) launched_table)
    (lookup launched_table) nobody_denied.

(** Process 300 has a command name with a blank in it. *)
Definition browser_table : list (Z * string) :=
  [(1, stat_line 1 "systemd" "S" 0);
   (300, stat_line 300 "Web Content" "S" 1);
   (301, stat_line 301 "helper" "S" 300)].

Definition browser : world :=
  mkWorld (other_entries ++ map (fun e => itoa (fst e)) browser_table)
    (lookup browser_table) nobody_denied.

(** The same crowd when the program itself, pid 1500, is one of the
    children of 10. *)
Definition crowd_with_prog : world :=
  mkWorld (entries crowd)
    (fun p => if p =? 1500 then Some (stat_line 1500 "prog" "R" 10)
              else files crowd p)
    nobody_denied.

(** A line of processes: the parent of [p] is [p + 1], up to 3000. *)
Definition ladder : world :=
  mkWorld []
    (fun p =>
       if (1 <=? p) && (p <? 3000) then Some (stat_line p "step" "S" (p + 1))
       else None)
    nobody_denied.

End Sim.

(** A system on which [/proc] is not mounted: [opendir] fails with
    [ENOENT], no [stat] file opens and no process can be signalled. *)
Module NoProc.

Definition ENOENT : Z := 2.

#[global] Instance noproc_os : ProcOS unit := {
  opendir_proc _ := DirError ENOENT;
  fopen_stat _ _ := None;
  sys_kill w _ _ := (Some Sim.ESRCH, w);
  getpid := 9000
}.

End NoProc.

(** Case analysis on the outcome of the call of [kill] in the goal. *)
Ltac after_kill :=
  match goal with
  | |- context [sys_kill ?w ?p ?s] =>
      destruct (sys_kill w p s) as [[?errnum|] ?w']
  end.

(** ** Records *)

Section Records.

Context {World : Type} {OS : ProcOS World}.

(** X20: A fetch that fails returns the blank record, unless the [stat] file
    itself begins with the number 0. *)
Lemma fetch_fails_blank (w : World) (p : Z) :
  (forall content rest,
     fopen_stat w p = Some content ->
     LibC.scan_int content <> Some (0, rest)) ->
  fetch_fails w p -> get_process_info w p = blank_info.
Proof.
  unfold fetch_fails, get_process_info. cbv zeta.
  destruct (fopen_stat w p) as [content|]; [|reflexivity].
  intros Hfirst. specialize (Hfirst content). unfold fscanf_stat.
  destruct (LibC.scan_int content) as [[v r1]|]; [|reflexivity].
  destruct (Z.eq_dec v 0) as [->|Hv];
    [exfalso; apply (Hfirst r1); reflexivity|].
  destruct (LibC.scan_skip_string (LibC.skip_ws r1)) as [r2|];
    [|cbn; intro; contradiction].
  destruct (LibC.scan_char (LibC.skip_ws r2)) as [[c r3]|];
    [|cbn; intro; contradiction].
  destruct (LibC.scan_int (LibC.skip_ws r3)) as [[pp r4]|];
    cbn; intro; contradiction.
Qed.

End Records.

(** ** Tree membership *)

Section TreeMembership.

Context {World : Type} {OS : ProcOS World}.
Variable w : World.

Lemma is_in_tree_loop_O (root_pid current : Z) :
  fst (is_in_tree_loop w root_pid O current) = false.
Proof. simpl. destruct (current =? 0); reflexivity. Qed.

Lemma is_in_tree_loop_zero (root_pid : Z) (fuel : nat) :
  fst (is_in_tree_loop w root_pid fuel 0) = false.
Proof. destruct fuel; reflexivity. Qed.

Lemma is_in_tree_loop_step (root_pid : Z) (fuel : nat) (current : Z) :
  fst (is_in_tree_loop w root_pid (S fuel) current) =
  if current =? 0 then false
  else if current =? root_pid then true
  else fst (is_in_tree_loop w root_pid fuel (parent_link w current)).
Proof.
  unfold parent_link. simpl.
  destruct (current =? 0); [reflexivity|].
  destruct (current =? root_pid); [reflexivity|].
  destruct (is_in_tree_loop w root_pid fuel (ppid (get_process_info w current)));
    reflexivity.
Qed.

Lemma ancestor_chain_head (hops : nat) (p : Z) :
  exists rest, ancestor_chain w hops p = p :: rest.
Proof. destruct hops; simpl; eauto. Qed.

(** The loop finds [root_pid] exactly when it is on the chain that starts
    at [current], within the links the remaining tests allow. *)
Lemma is_in_tree_loop_chain (root_pid : Z) (fuel : nat) :
  forall current,
    fst (is_in_tree_loop w root_pid (S fuel) current) = true <->
    current <> 0 /\ In root_pid (ancestor_chain w fuel current).
Proof.
  induction fuel as [|fuel IH]; intro current;
    rewrite is_in_tree_loop_step.
  - destruct (Z.eqb_spec current 0) as [->|Hnz];
      [split; [discriminate | intros [H _]; now contradiction H]|].
    destruct (Z.eqb_spec current root_pid) as [->|Hne].
    + simpl. intuition.
    + rewrite is_in_tree_loop_O. simpl.
      split; [discriminate|]. intros [_ [H|[]]]. congruence.
  - destruct (Z.eqb_spec current 0) as [->|Hnz];
      [split; [discriminate | intros [H _]; now contradiction H]|].
    destruct (Z.eqb_spec current root_pid) as [->|Hne].
    + split; [intros _|reflexivity]. split; [assumption|]. simpl. now left.
    + rewrite IH. cbn [ancestor_chain].
      destruct (Z.eqb_spec (parent_link w current) 0) as [H0|H0].
      * split; [tauto|]. intros [_ [H|[]]]. congruence.
      * split.
        -- intros [_ H]. split; [assumption|]. now right.
        -- intros [_ [H|H]]; [congruence|]. now split.
Qed.

Lemma is_in_tree_refl (p : Z) : is_in_tree w p p = true.
Proof. unfold is_in_tree, is_in_tree_run. now rewrite Z.eqb_refl. Qed.

Lemma is_in_tree_unfold (root_pid target_pid : Z) :
  is_in_tree w root_pid target_pid =
  if root_pid =? target_pid then true
  else if pid (get_process_info w target_pid) =? 0 then false
  else fst (is_in_tree_loop w root_pid MAX_ITERATIONS
              (parent_link w target_pid)).
Proof.
  unfold is_in_tree, is_in_tree_run, parent_link.
  destruct (root_pid =? target_pid); [reflexivity|].
  destruct (pid (get_process_info w target_pid) =? 0); [reflexivity|].
  destruct (is_in_tree_loop w root_pid MAX_ITERATIONS
              (ppid (get_process_info w target_pid))); reflexivity.
Qed.

(** The same for any number of tests the loop is allowed. *)
Lemma is_in_tree_chain_fuel (n : nat) (root_pid target_pid : Z) :
  MAX_ITERATIONS = S n ->
  (fetch_fails w target_pid -> parent_link w target_pid = 0) ->
  is_in_tree w root_pid target_pid = true <->
  In root_pid (ancestor_chain w (S n) target_pid).
Proof.
  intros Hmax Hblank. rewrite is_in_tree_unfold, Hmax.
  destruct (Z.eqb_spec root_pid target_pid) as [->|Hne].
  - split; [intros _|reflexivity]. cbn [ancestor_chain]. now left.
  - cbn [ancestor_chain].
    destruct (Z.eqb_spec (pid (get_process_info w target_pid)) 0) as [Hf|Hf].
    + rewrite (Hblank Hf). cbn [Z.eqb].
      split; [discriminate|]. intros [H|[]]. congruence.
    + rewrite is_in_tree_loop_chain.
      destruct (Z.eqb_spec (parent_link w target_pid) 0) as [H0|H0].
      * split; [tauto|]. intros [H|[]]. congruence.
      * split.
        -- intros [_ H]. now right.
        -- intros [H|H]; [congruence|]. now split.
Qed.

(** C1: [is_in_tree root target] is true exactly when [root] is on the
    ancestor chain that starts at [target] and follows parent links for at
    most 1000 hops, the chain ending where it reaches pid 0; it is false
    when the chain ends, at pid 0 or at the hop bound, without meeting
    [root].  The record of a target whose fetch fails carries no parent. *)
Theorem is_in_tree_iff_on_ancestor_chain (root_pid target_pid : Z) :
  (fetch_fails w target_pid -> parent_link w target_pid = 0) ->
  (is_in_tree w root_pid target_pid = true <->
   In root_pid (ancestor_chain w 1000 target_pid)) /\
  (is_in_tree w root_pid target_pid = false <->
   ~ In root_pid (ancestor_chain w 1000 target_pid)).
Proof.
  intro Hblank.
  pose proof (is_in_tree_chain_fuel 999 root_pid target_pid eq_refl Hblank)
    as Hiff.
  split; [exact Hiff|].
  destruct Hiff as [Hto Hfrom]. split.
  - intros Hfalse Hin. apply Hfrom in Hin. congruence.
  - intro Hnot. destruct (is_in_tree w root_pid target_pid); [|reflexivity].
    exfalso. apply Hnot, Hto. reflexivity.
Qed.

(** C10: when the record of [target], different from [root], cannot be
    fetched, [is_in_tree] answers false, and the only record it read is the
    one of [target]: no ancestor was visited. *)
Theorem is_in_tree_unfetched_target (root_pid target_pid : Z) :
  root_pid <> target_pid ->
  fetch_fails w target_pid ->
  is_in_tree w root_pid target_pid = false /\
  is_in_tree_reads w root_pid target_pid = [target_pid].
Proof.
  intros Hne Hf. unfold is_in_tree, is_in_tree_reads, is_in_tree_run.
  destruct (Z.eqb_spec root_pid target_pid) as [|_]; [contradiction|].
  unfold fetch_fails in Hf. rewrite Hf. simpl. split; reflexivity.
Qed.

End TreeMembership.

(** ** Listings *)

Lemma stdout_pids_app (a b : trace) :
  stdout_pids (a ++ b) = stdout_pids a ++ stdout_pids b.
Proof. unfold stdout_pids. apply flat_map_app. Qed.

Lemma stdout_pids_print_error (msg : farg) (e : Z) :
  stdout_pids (print_error msg e) = [].
Proof. reflexivity. Qed.

(** A loop that prints the entries passing a test prints the entries
    filtered by that test. *)
Lemma stdout_pids_scan (test : Z -> bool) (pids : list Z) :
  stdout_pids (flat_map (fun p => if test p then print_pid p else []) pids)
  = filter test pids.
Proof.
  induction pids as [|p pids IH]; [reflexivity|].
  cbn [flat_map filter]. rewrite stdout_pids_app, IH.
  destruct (test p); reflexivity.
Qed.

Lemma stdout_pids_scan_ext (body : Z -> trace) (test : Z -> bool)
    (pids : list Z) :
  (forall p, body p = if test p then print_pid p else []) ->
  stdout_pids (flat_map body pids) = filter test pids.
Proof.
  intro Hbody. rewrite <- stdout_pids_scan. f_equal.
  apply flat_map_ext. exact Hbody.
Qed.

Lemma In_firstn {A : Type} (n : nat) (l : list A) (x : A) :
  In x (firstn n l) -> In x l.
Proof.
  intro H. rewrite <- (firstn_skipn n l). apply in_or_app. now left.
Qed.

Lemma filter_length_le_Z {A : Type} (f : A -> bool) (l : list A) :
  Z.of_nat (List.length (filter f l)) <= Z.of_nat (List.length l).
Proof. apply Nat2Z.inj_le, filter_length_le. Qed.

Section Listings.

Context {World : Type} {OS : ProcOS World}.
Variable w : World.

Lemma count_defunct_loop_filter (t : Z) (pids : list Z) :
  count_defunct_loop w t pids =
  Z.of_nat (List.length (filter (is_counted_zombie w t) pids)).
Proof.
  unfold count_defunct_loop.
  enough (H : forall acc,
             fold_left
               (fun count curr_pid =>
                  let info := get_process_info w curr_pid in
                  if pid info =? 0 then count
                  else if is_in_tree w t curr_pid && is_zombie info
                       then count + 1 else count) pids acc
             = acc + Z.of_nat (List.length (filter (is_counted_zombie w t) pids)))
    by (rewrite H; lia).
  induction pids as [|p pids IH]; intro acc; cbn [fold_left filter].
  - simpl. lia.
  - rewrite IH. unfold is_counted_zombie at 2. cbv zeta.
    destruct (pid (get_process_info w p) =? 0); simpl; [lia|].
    destruct (is_in_tree w t p && is_zombie (get_process_info w p));
      simpl; lia.
Qed.

Lemma list_defunct_descendants_pids (t : Z) (names : list string) :
  opendir_proc w = DirEntries names ->
  stdout_pids (list_defunct_descendants w t) =
  filter (fun p => is_counted_zombie w t p && negb (p =? t)) (proc_pids names).
Proof.
  intro Hdir. unfold list_defunct_descendants. rewrite Hdir.
  apply stdout_pids_scan_ext. intro p. unfold is_counted_zombie. cbv zeta.
  destruct (pid (get_process_info w p) =? 0); reflexivity.
Qed.

Lemma list_immediate_descendants_pids (t : Z) (names : list string) :
  opendir_proc w = DirEntries names ->
  stdout_pids (list_immediate_descendants w t) =
  filter (fun p => negb (pid (get_process_info w p) =? 0)
                   && (parent_link w p =? t)) (proc_pids names).
Proof.
  intro Hdir. unfold list_immediate_descendants. rewrite Hdir.
  apply stdout_pids_scan_ext. intro p. unfold parent_link. cbv zeta.
  destruct (pid (get_process_info w p) =? 0); reflexivity.
Qed.

Lemma list_non_direct_descendants_pids (t parent : Z) (names : list string) :
  opendir_proc w = DirEntries names ->
  stdout_pids (list_non_direct_descendants w t parent) =
  filter (fun p => is_listed_descendant w t p
                   && negb (parent_link w p =? parent)) (proc_pids names).
Proof.
  intro Hdir. unfold list_non_direct_descendants. rewrite Hdir.
  apply stdout_pids_scan_ext. intro p.
  unfold is_listed_descendant, parent_link. cbv zeta.
  destruct (pid (get_process_info w p) =? 0); [reflexivity|].
  destruct (is_in_tree w t p), (ppid (get_process_info w p) =? parent),
    (p =? t); reflexivity.
Qed.

Lemma list_siblings_pids (t : Z) (names : list string) :
  opendir_proc w = DirEntries names ->
  ~ fetch_fails w t ->
  stdout_pids (list_siblings w t) =
  filter (fun p => negb (p =? t) && (parent_link w p =? parent_link w t))
    (proc_pids names).
Proof.
  intros Hdir Hf. unfold list_siblings, fetch_fails in *. cbv zeta.
  destruct (Z.eqb_spec (pid (get_process_info w t)) 0); [contradiction|].
  rewrite Hdir. apply stdout_pids_scan_ext. intro p. unfold parent_link.
  destruct (p =? t); reflexivity.
Qed.

(** The scans that test [info.pid == 0] print no entry whose fetch failed. *)
Lemma list_immediate_descendants_fetched (t p : Z) :
  In p (stdout_pids (list_immediate_descendants w t)) -> ~ fetch_fails w p.
Proof.
  destruct (opendir_proc w) as [names|e] eqn:Hdir.
  - rewrite (list_immediate_descendants_pids t names Hdir), filter_In.
    unfold fetch_fails. intros [_ H] Hf. rewrite Hf in H. discriminate.
  - unfold list_immediate_descendants. rewrite Hdir. intros [].
Qed.

Lemma list_defunct_descendants_fetched (t p : Z) :
  In p (stdout_pids (list_defunct_descendants w t)) -> ~ fetch_fails w p.
Proof.
  destruct (opendir_proc w) as [names|e] eqn:Hdir.
  - rewrite (list_defunct_descendants_pids t names Hdir), filter_In.
    unfold fetch_fails, is_counted_zombie. intros [_ H] Hf.
    rewrite Hf in H. discriminate.
  - unfold list_defunct_descendants. rewrite Hdir. intros [].
Qed.

Lemma list_non_direct_descendants_fetched (t parent p : Z) :
  In p (stdout_pids (list_non_direct_descendants w t parent)) ->
  ~ fetch_fails w p.
Proof.
  destruct (opendir_proc w) as [names|e] eqn:Hdir.
  - rewrite (list_non_direct_descendants_pids t parent names Hdir), filter_In.
    unfold fetch_fails, is_listed_descendant. intros [_ H] Hf.
    rewrite Hf in H. discriminate.
  - unfold list_non_direct_descendants. rewrite Hdir. intros [].
Qed.

(** C5: on a snapshot, the count of defunct descendants of [t] is at least
    the number of pids the listing of zombie descendants prints; the two are
    equal unless [t] itself is a zombie, and the difference is the number of
    times [t] is counted. *)
Theorem defunct_count_ge_zombie_listing (t : Z) (names : list string) :
  opendir_proc w = DirEntries names ->
  let count := snd (count_defunct_descendants w t) in
  let listed := stdout_pids (list_defunct_descendants w t) in
  count >= Z.of_nat (List.length listed) /\
  (is_zombie (get_process_info w t) = false ->
   count = Z.of_nat (List.length listed)) /\
  count = Z.of_nat (List.length listed)
          + Z.of_nat (count_occ Z.eq_dec
                        (filter (is_counted_zombie w t) (proc_pids names)) t).
Proof.
  intros Hdir count listed. subst count listed.
  rewrite (list_defunct_descendants_pids t names Hdir).
  unfold count_defunct_descendants. rewrite Hdir. cbn [snd].
  rewrite count_defunct_loop_filter.
  set (pids := proc_pids names). clearbody pids.
  assert (Hsplit :
    Z.of_nat (List.length (filter (is_counted_zombie w t) pids)) =
    Z.of_nat (List.length
      (filter (fun p => is_counted_zombie w t p && negb (p =? t)) pids))
    + Z.of_nat (count_occ Z.eq_dec (filter (is_counted_zombie w t) pids) t)).
  { induction pids as [|p pids IH]; [reflexivity|]. cbn [filter].
    destruct (is_counted_zombie w t p); cbn [andb].
    - cbn [count_occ]. destruct (Z.eqb_spec p t) as [->|Hne]; cbn [negb].
      + destruct (Z.eq_dec t t); [|contradiction]. cbn [List.length]. lia.
      + destruct (Z.eq_dec p t); [contradiction|]. cbn [List.length]. lia.
    - exact IH. }
  split; [lia|]. split; [|exact Hsplit].
  intro Hnz. rewrite Hsplit.
  replace (count_occ Z.eq_dec (filter (is_counted_zombie w t) pids) t)
    with 0%nat; [lia|].
  symmetry. apply count_occ_not_In. rewrite filter_In.
  unfold is_counted_zombie. rewrite Hnz, andb_false_r. intros [_ H].
  discriminate.
Qed.

(** Every pid the grandchildren scan prints is the child of an entry that
    names the target as its parent. *)
Lemma list_grandchildren_loop_In (t g : Z) (pids : list Z) :
  In g (stdout_pids (list_grandchildren_loop w t pids)) ->
  exists c, In c pids /\ parent_link w c = t /\ parent_link w g = c.
Proof.
  induction pids as [|c pids IH]; cbn [list_grandchildren_loop];
    [intros []|].
  cbv zeta. fold (parent_link w c).
  destruct (Z.eqb_spec (parent_link w c) t) as [Hc|Hc]; cbn [negb].
  - destruct (opendir_proc w) as [names2|e]; [|intros []].
    rewrite stdout_pids_app, in_app_iff.
    intros [Hin|Hin].
    + rewrite (stdout_pids_scan_ext _ (fun p => parent_link w p =? c))
        in Hin by reflexivity.
      apply filter_In in Hin. destruct Hin as [_ Hg].
      exists c. split; [now left|]. split; [assumption|]. lia.
    + destruct (IH Hin) as (c' & Hc' & H1 & H2).
      exists c'. split; [now right|]. now split.
  - intro Hin. destruct (IH Hin) as (c' & Hc' & H1 & H2).
    exists c'. split; [now right|]. now split.
Qed.

(** X28: on a snapshot in which the record of [t] does not name
    [t] as its own parent, no pid is printed both by the grandchildren
    listing and by the children listing of [t]. *)
Theorem grandchildren_children_disjoint_if_not_own_parent (t : Z) :
  parent_link w t <> t -> grandchildren_children_disjoint w t.
Proof.
  intros Hself g Hg Hc.
  assert (Hpg : parent_link w g = t).
  { destruct (opendir_proc w) as [names|e] eqn:Hdir.
    - rewrite (list_immediate_descendants_pids t names Hdir) in Hc.
      apply filter_In in Hc. destruct Hc as [_ Hc].
      apply andb_prop in Hc. destruct Hc as [_ Hc]. lia.
    - unfold list_immediate_descendants in Hc. rewrite Hdir in Hc.
      destruct Hc. }
  unfold list_grandchildren in Hg.
  destruct (opendir_proc w) as [names|e]; [|destruct Hg].
  apply list_grandchildren_loop_In in Hg.
  destruct Hg as (c & _ & Hct & Hgc). congruence.
Qed.

End Listings.

(** ** Actions *)

Lemma signals_app (a b : trace) : signals (a ++ b) = signals a ++ signals b.
Proof. unfold signals. apply flat_map_app. Qed.

Lemma signals_print_error (msg : farg) (e : Z) : signals (print_error msg e) = [].
Proof. reflexivity. Qed.

Lemma In_Kill_signals (p sig : Z) (t : trace) :
  In (Kill p sig) t <-> In (p, sig) (signals t).
Proof.
  unfold signals. rewrite in_flat_map. split.
  - intro H. exists (Kill p sig). split; [exact H|now left].
  - intros ([out fmt args|q s] & Hin & Hq); cbn in Hq; [destruct Hq|].
    destruct Hq as [Hq|[]]. inversion Hq; subst. exact Hin.
Qed.

Lemma existsb_rev {A : Type} (f : A -> bool) (l : list A) :
  existsb f (rev l) = existsb f l.
Proof.
  induction l as [|x l IH]; [reflexivity|].
  cbn [rev existsb]. rewrite existsb_app, IH. cbn [existsb].
  rewrite orb_false_r. apply orb_comm.
Qed.

Section Actions.

Context {World : Type} {OS : ProcOS World}.

Lemma bind_observe {A B : Type} (f : World -> A) (k : A -> Act B)
    (w : World) :
  bind (observe f) k w = k (f w) w.
Proof.
  unfold bind, observe. destruct (k (f w) w) as [[b w2] t2]. reflexivity.
Qed.

Lemma trace_of_bind {A B : Type} (c : Act A) (k : A -> Act B) (w : World) :
  trace_of (bind c k w) =
  trace_of (c w)
  ++ match result_of (c w) with
     | Some a => trace_of (k a (world_of (c w)))
     | None => []
     end.
Proof.
  unfold bind, trace_of, result_of, world_of.
  destruct (c w) as [[[a|] w1] t1]; cbn [fst snd].
  - destruct (k a w1) as [[b w2] t2]. reflexivity.
  - now rewrite app_nil_r.
Qed.

Lemma world_of_bind {A B : Type} (c : Act A) (k : A -> Act B) (w : World) :
  world_of (bind c k w) =
  match result_of (c w) with
  | Some a => world_of (k a (world_of (c w)))
  | None => world_of (c w)
  end.
Proof.
  unfold bind, trace_of, result_of, world_of.
  destruct (c w) as [[[a|] w1] t1]; cbn [fst snd]; [|reflexivity].
  destruct (k a w1) as [[b w2] t2]. reflexivity.
Qed.

Lemma result_of_bind {A B : Type} (c : Act A) (k : A -> Act B) (w : World) :
  result_of (bind c k w) =
  match result_of (c w) with
  | Some a => result_of (k a (world_of (c w)))
  | None => None
  end.
Proof.
  unfold bind, trace_of, result_of, world_of.
  destruct (c w) as [[[a|] w1] t1]; cbn [fst snd]; [|reflexivity].
  destruct (k a w1) as [[b w2] t2]. reflexivity.
Qed.

Lemma trace_of_kill (p sig : Z) (w : World) :
  trace_of (kill p sig w) = [Kill p sig].
Proof.
  unfold kill, trace_of. destruct (sys_kill w p sig).
  destruct ((p =? getpid) && (sig =? SIGKILL)); reflexivity.
Qed.

Lemma result_of_kill (p sig : Z) (w : World) :
  result_of (kill p sig w) =
  if own_kill (p, sig) then None else Some (fst (sys_kill w p sig)).
Proof.
  unfold kill, result_of, own_kill. cbn [fst snd].
  destruct (sys_kill w p sig).
  destruct ((p =? getpid) && (sig =? SIGKILL)); reflexivity.
Qed.

Lemma world_of_kill (p sig : Z) (w : World) :
  world_of (kill p sig w) = snd (sys_kill w p sig).
Proof.
  unfold kill, world_of. destruct (sys_kill w p sig).
  destruct ((p =? getpid) && (sig =? SIGKILL)); reflexivity.
Qed.

Lemma trace_of_foldA_cons {A S : Type} (body : S -> A -> Act S) (s : S)
    (x : A) (l : list A) (w : World) :
  trace_of (foldA body s (x :: l) w) =
  trace_of (body s x w)
  ++ match result_of (body s x w) with
     | Some s' => trace_of (foldA body s' l (world_of (body s x w)))
     | None => []
     end.
Proof. exact (trace_of_bind (body s x) (fun s' => foldA body s' l) w). Qed.

Lemma world_of_foldA_cons {A S : Type} (body : S -> A -> Act S) (s : S)
    (x : A) (l : list A) (w : World) :
  world_of (foldA body s (x :: l) w) =
  match result_of (body s x w) with
  | Some s' => world_of (foldA body s' l (world_of (body s x w)))
  | None => world_of (body s x w)
  end.
Proof. exact (world_of_bind (body s x) (fun s' => foldA body s' l) w). Qed.

Lemma result_of_foldA_cons {A S : Type} (body : S -> A -> Act S) (s : S)
    (x : A) (l : list A) (w : World) :
  result_of (foldA body s (x :: l) w) =
  match result_of (body s x w) with
  | Some s' => result_of (foldA body s' l (world_of (body s x w)))
  | None => None
  end.
Proof. exact (result_of_bind (body s x) (fun s' => foldA body s' l) w). Qed.

(** What holds of the signals of every turn holds of the signals of the
    loop. *)
Lemma foldA_signals_Forall {A S : Type} (P : Z * Z -> Prop)
    (body : S -> A -> Act S) :
  (forall s x (w : World), Forall P (signals (trace_of (body s x w)))) ->
  forall l s (w : World), Forall P (signals (trace_of (foldA body s l w))).
Proof.
  intros Hbody l. induction l as [|x l IH]; intros s w.
  - constructor.
  - rewrite trace_of_foldA_cons, signals_app. apply Forall_app.
    split; [apply Hbody|].
    destruct (result_of (body s x w)); [apply IH|constructor].
Qed.

Lemma until_own_kill_In (calls : list (Z * Z)) (call : Z * Z) :
  In call (until_own_kill calls) -> In call calls.
Proof.
  induction calls as [|c calls IH]; [intros []|].
  cbn [until_own_kill]. intros [H|H]; [now left|].
  destruct (own_kill c); [destruct H|]. right. now apply IH.
Qed.

Lemma until_own_kill_all (calls : list (Z * Z)) :
  existsb own_kill calls = false -> until_own_kill calls = calls.
Proof.
  induction calls as [|c calls IH]; [reflexivity|].
  cbn [existsb until_own_kill]. intro H. apply orb_false_elim in H.
  destruct H as [Hc H]. rewrite Hc, IH by exact H. reflexivity.
Qed.

Lemma own_kill_sigkill (p : Z) : own_kill (p, SIGKILL) = (p =? getpid).
Proof. unfold own_kill. cbn [fst snd]. now rewrite Z.eqb_refl, andb_true_r. Qed.

Lemma existsb_own_kill_map (l : list Z) :
  existsb own_kill (map (fun p => (p, SIGKILL)) l)
  = existsb (fun p => p =? getpid) l.
Proof.
  induction l as [|p l IH]; [reflexivity|].
  cbn [map existsb]. now rewrite IH, own_kill_sigkill.
Qed.

(** A call of [kill] followed by the line that reports it. *)
Lemma kill_report_run (p sig : Z) (failed : Z -> trace) (done : trace)
    (w : World) :
  (forall e, signals (failed e) = []) -> signals done = [] ->
  let run :=
    bind (kill p sig)
      (fun r => match r with
                | Some errnum => emit (failed errnum)
                | None => emit done
                end) w in
  signals (trace_of run) = [(p, sig)] /\
  result_of run = (if own_kill (p, sig) then None else Some tt) /\
  world_of run = snd (sys_kill w p sig).
Proof.
  intros Hfailed Hdone. cbv zeta.
  unfold bind, kill, emit, own_kill, trace_of, result_of, world_of.
  cbn [fst snd].
  destruct (sys_kill w p sig) as [[errnum|] w'];
    destruct ((p =? getpid) && (sig =? SIGKILL)); cbn [fst snd];
    rewrite ?signals_app, ?Hfailed, ?Hdone; repeat split; reflexivity.
Qed.

(** The pass over the collected pids, for any list taken in order. *)
Lemma kill_each_run (l : list Z) :
  forall (w : World) (u : unit),
    let run :=
      foldA
        (fun (_ : unit) (curr_pid : Z) =>
           bind (kill curr_pid SIGKILL)
             (fun r =>
                match r with
                | Some errnum =>
                    emit (print_error
                            (ASnprintf "Failed to kill descendant %d"
                               [curr_pid]) errnum)
                | None =>
                    emit [Printf Stdout "Killed descendant %d\n"
                            [AInt curr_pid]]
                end)) u l w in
    signals (trace_of run) = until_own_kill (map (fun p => (p, SIGKILL)) l) /\
    result_of run =
      if existsb (fun p => p =? getpid) l then None else Some tt.
Proof.
  induction l as [|p l IH]; intros w u; cbv zeta.
  - destruct u. split; reflexivity.
  - rewrite trace_of_foldA_cons, result_of_foldA_cons, signals_app.
    destruct (kill_report_run p SIGKILL
                (fun errnum =>
                   print_error (ASnprintf "Failed to kill descendant %d" [p])
                     errnum)
                [Printf Stdout "Killed descendant %d\n" [AInt p]] w
                (fun _ => eq_refl) eq_refl) as (Hs & Hr & Hw).
    cbv zeta in Hs, Hr, Hw. rewrite Hs, Hr, Hw.
    cbn [map until_own_kill existsb app]. rewrite own_kill_sigkill.
    destruct (p =? getpid); cbn [orb]; [split; reflexivity|].
    destruct (IH (snd (sys_kill w p SIGKILL)) tt) as [Hs2 Hr2].
    cbv zeta in Hs2, Hr2. rewrite Hs2, Hr2. split; reflexivity.
Qed.

Lemma kill_collected_signals (descendants : list Z) (w : World) :
  signals (trace_of (kill_collected descendants w)) =
  until_own_kill (map (fun p => (p, SIGKILL)) (rev descendants)).
Proof.
  unfold kill_collected, forA.
  exact (proj1 (kill_each_run (rev descendants) w tt)).
Qed.

Lemma kill_collected_result (descendants : list Z) (w : World) :
  result_of (kill_collected descendants w) =
  if existsb (fun p => p =? getpid) descendants then None else Some tt.
Proof.
  unfold kill_collected, forA.
  rewrite (proj2 (kill_each_run (rev descendants) w tt)).
  now rewrite existsb_rev.
Qed.

Lemma rescan_body_signals (t missed curr_pid : Z) (w : World) :
  Forall (fun s => fst s <> t /\ snd s = SIGKILL)
    (signals (trace_of (rescan_body t missed curr_pid w))).
Proof.
  unfold rescan_body. rewrite bind_observe.
  destruct (pid (get_process_info w curr_pid) =? 0); [constructor|].
  rewrite bind_observe.
  destruct (is_in_tree w t curr_pid); cbn [andb]; [|constructor].
  destruct (Z.eqb_spec curr_pid t) as [|Hne]; cbn [negb]; [constructor|].
  rewrite trace_of_bind, trace_of_kill, signals_app.
  apply Forall_app. split.
  - constructor; [split; [assumption|reflexivity]|constructor].
  - rewrite result_of_kill. destruct (own_kill (curr_pid, SIGKILL));
      [constructor|].
    destruct (fst (sys_kill w curr_pid SIGKILL)); constructor.
Qed.

Lemma rescan_descendants_signals (t : Z) (w : World) :
  Forall (fun s => fst s <> t /\ snd s = SIGKILL)
    (signals (trace_of (rescan_descendants t w))).
Proof.
  unfold rescan_descendants. rewrite bind_observe.
  destruct (opendir_proc w) as [names|e]; [|constructor].
  rewrite trace_of_bind, signals_app.
  apply Forall_app. split.
  - apply foldA_signals_Forall. intros. apply rescan_body_signals.
  - destruct (result_of _) as [missed|]; [|constructor].
    destruct (missed >? 0); constructor.
Qed.

Lemma collect_descendants_cons (w : World) (t p : Z) (pids acc : list Z) :
  collect_descendants w t (p :: pids) acc =
  if is_listed_descendant w t p then
    if Z.of_nat (List.length acc) <? MAX_DESCENDANTS
    then collect_descendants w t pids (acc ++ [p])
    else (acc, overflow_warning)
  else collect_descendants w t pids acc.
Proof.
  cbn [collect_descendants]. unfold is_listed_descendant. cbv zeta.
  destruct (pid (get_process_info w p) =? 0); [reflexivity|].
  cbn [negb andb].
  destruct (is_in_tree w t p && negb (p =? t)); reflexivity.
Qed.

(** The first pass keeps the entries that pass the test, in directory
    order, up to the size of the array, and warns when one more arrives. *)
Lemma collect_descendants_firstn (w : World) (t : Z) (pids : list Z) :
  forall descendants,
    Z.of_nat (List.length descendants) <= MAX_DESCENDANTS ->
    collect_descendants w t pids descendants =
    (firstn (Z.to_nat MAX_DESCENDANTS)
       (descendants ++ filter (is_listed_descendant w t) pids),
     if MAX_DESCENDANTS
        <? Z.of_nat (List.length
                       (descendants ++ filter (is_listed_descendant w t) pids))
     then overflow_warning else []).
Proof.
  assert (Hcap : 0 <= MAX_DESCENDANTS) by (unfold MAX_DESCENDANTS; lia).
  induction pids as [|p pids IH]; intros acc Hacc.
  - cbn [collect_descendants filter].
    rewrite app_nil_r, firstn_all2 by lia.
    destruct (Z.ltb_spec MAX_DESCENDANTS (Z.of_nat (List.length acc)));
      [lia|reflexivity].
  - rewrite collect_descendants_cons. cbn [filter].
    destruct (is_listed_descendant w t p); [|apply IH; assumption].
    destruct (Z.ltb_spec (Z.of_nat (List.length acc)) MAX_DESCENDANTS)
      as [Hlt|Hge].
    + rewrite IH by (rewrite length_app; cbn [List.length]; lia).
      rewrite <- app_assoc. reflexivity.
    + assert (Hlen : List.length acc = Z.to_nat MAX_DESCENDANTS) by lia.
      rewrite firstn_app, <- Hlen, firstn_all, Nat.sub_diag.
      cbn [firstn]. rewrite app_nil_r.
      rewrite length_app. cbn [List.length].
      destruct (Z.ltb_spec MAX_DESCENDANTS
                  (Z.of_nat (List.length acc
                             + S (List.length
                                    (filter (is_listed_descendant w t) pids)))));
        [reflexivity|lia].
Qed.

Lemma kill_descendants_trace (t : Z) (names : list string) (w : World) :
  opendir_proc w = DirEntries names ->
  let collected := collect_descendants w t (proc_pids names) [] in
  trace_of (kill_descendants t w) =
  snd collected
  ++ trace_of (kill_collected (fst collected) w)
  ++ (if existsb (fun p => p =? getpid) (fst collected) then []
      else trace_of (rescan_descendants t
                       (world_of (kill_collected (fst collected) w)))).
Proof.
  intros Hdir collected. subst collected.
  unfold kill_descendants. rewrite bind_observe, Hdir, bind_observe.
  destruct (collect_descendants w t (proc_pids names) []) as [ds warning].
  cbn [fst snd]. rewrite trace_of_bind.
  cbn [emit trace_of result_of world_of fst snd]. f_equal.
  rewrite trace_of_bind, kill_collected_result.
  destruct (existsb (fun p => p =? getpid) ds); reflexivity.
Qed.

Lemma kill_descendants_result (t : Z) (names : list string) (w : World) :
  opendir_proc w = DirEntries names ->
  let collected := collect_descendants w t (proc_pids names) [] in
  result_of (kill_descendants t w) =
  if existsb (fun p => p =? getpid) (fst collected) then None
  else result_of (rescan_descendants t
                    (world_of (kill_collected (fst collected) w))).
Proof.
  intros Hdir collected. subst collected.
  unfold kill_descendants. rewrite bind_observe, Hdir, bind_observe.
  destruct (collect_descendants w t (proc_pids names) []) as [ds warning].
  cbn [fst snd]. rewrite result_of_bind.
  cbn [emit trace_of result_of world_of fst snd].
  rewrite result_of_bind, kill_collected_result.
  destruct (existsb (fun p => p =? getpid) ds); reflexivity.
Qed.

(** One turn of the loop of [kill_zombie_parents] signals the parent of
    the entry, with [SIGKILL], when the entry is a zombie of the tree whose
    record names a parent, and nothing otherwise. *)
Lemma kill_zombie_parents_body_signals (t : Z) (killed_any : bool)
    (curr_pid : Z) (w : World) :
  signals (trace_of (kill_zombie_parents_body t killed_any curr_pid w)) =
  if is_counted_zombie w t curr_pid && negb (parent_link w curr_pid =? 0)
  then [(parent_link w curr_pid, SIGKILL)] else [].
Proof.
  unfold kill_zombie_parents_body, is_counted_zombie, parent_link.
  rewrite !bind_observe.
  destruct (pid (get_process_info w curr_pid) =? 0); [reflexivity|].
  destruct (is_in_tree w t curr_pid); [|reflexivity].
  cbn [negb orb andb].
  destruct (is_zombie (get_process_info w curr_pid)); [|reflexivity].
  destruct (ppid (get_process_info w curr_pid) =? 0); [reflexivity|].
  cbn [negb andb]. cbv zeta.
  rewrite trace_of_bind, trace_of_kill, signals_app, result_of_kill.
  destruct (own_kill (ppid (get_process_info w curr_pid), SIGKILL));
    [reflexivity|].
  destruct (fst (sys_kill w (ppid (get_process_info w curr_pid)) SIGKILL));
    reflexivity.
Qed.

(** C6: no call of [kill] made by [kill_descendants], in the pass over the
    collected pids or in the second scan, has the target itself as its
    pid. *)
Theorem kill_descendants_spares_target (t : Z) (w : World) :
  Forall (fun s => fst s <> t) (signals (trace_of (kill_descendants t w))).
Proof.
  destruct (opendir_proc w) as [names|e] eqn:Hdir.
  - rewrite (kill_descendants_trace t names w Hdir).
    rewrite collect_descendants_firstn
      by (unfold MAX_DESCENDANTS; cbn [List.length]; lia).
    cbn [fst snd app]. rewrite !signals_app. rewrite !Forall_app.
    split; [|split].
    + destruct (_ <? _); constructor.
    + rewrite kill_collected_signals. apply Forall_forall. intros s Hs.
      apply until_own_kill_In, in_map_iff in Hs.
      destruct Hs as (p & <- & Hp). cbn [fst].
      apply in_rev, In_firstn, filter_In in Hp. destruct Hp as [_ Hp].
      unfold is_listed_descendant in Hp.
      apply andb_prop in Hp. destruct Hp as [_ Hp].
      destruct (Z.eqb_spec p t); [discriminate|assumption].
    + destruct (existsb _ _); [constructor|].
      eapply Forall_impl; [|apply rescan_descendants_signals].
      intros s [Hs _]. exact Hs.
  - unfold kill_descendants. rewrite bind_observe, Hdir. constructor.
Qed.

(** X26: The calls of [kill_descendants]: [SIGKILL] on the collected pids, the
    first 1024 descendants in directory order, taken in the reverse of that
    order, up to and including the program's own pid when it is among
    them, since the run ends there; when it is not, the whole reversed
    list, followed by the calls of the second scan. *)
Theorem kill_descendants_calls (t : Z) (names : list string) (w : World) :
  opendir_proc w = DirEntries names ->
  let collected :=
    firstn 1024 (filter (is_listed_descendant w t) (proc_pids names)) in
  let calls := map (fun p => (p, SIGKILL)) (rev collected) in
  fst (collect_descendants w t (proc_pids names) []) = collected /\
  signals (trace_of (kill_descendants t w)) =
    until_own_kill calls
    ++ (if existsb (fun p => p =? getpid) collected then []
        else signals (trace_of (rescan_descendants t
                                  (world_of (kill_collected collected w))))) /\
  (~ In getpid collected -> until_own_kill calls = calls) /\
  (In getpid collected -> result_of (kill_descendants t w) = None).
Proof.
  intros Hdir collected calls.
  assert (Hc : fst (collect_descendants w t (proc_pids names) []) = collected).
  { rewrite collect_descendants_firstn
      by (unfold MAX_DESCENDANTS; cbn [List.length]; lia).
    reflexivity. }
  split; [exact Hc|]. split; [|split].
  - rewrite (kill_descendants_trace t names w Hdir), Hc.
    rewrite !signals_app, kill_collected_signals.
    replace (signals (snd (collect_descendants w t (proc_pids names) [])))
      with (@nil (Z * Z)).
    + cbn [app]. f_equal. destruct (existsb _ collected); reflexivity.
    + rewrite collect_descendants_firstn
        by (unfold MAX_DESCENDANTS; cbn [List.length]; lia).
      cbn [snd]. destruct (_ <? _); reflexivity.
  - intro Hnot. apply until_own_kill_all. subst calls.
    rewrite existsb_own_kill_map, existsb_rev.
    destruct (existsb (fun p => p =? getpid) collected) eqn:He; [|reflexivity].
    apply existsb_exists in He. destruct He as (p & Hp & Heq).
    apply Z.eqb_eq in Heq. subst p. contradiction.
  - intro Hin. rewrite (kill_descendants_result t names w Hdir), Hc.
    replace (existsb (fun p => p =? getpid) collected) with true;
      [reflexivity|].
    symmetry. apply existsb_exists. exists getpid.
    split; [exact Hin|apply Z.eqb_refl].
Qed.

(** X27: When more than 1024 descendants are met, the first pass keeps the
    first 1024 in directory order and stops with the line
    [Warning: Too many descendants; some may be missed] on the standard
    error, the first thing [kill_descendants] then puts out; the run goes
    on with the 1024 kept pids, and when the program's own pid is not one
    of them each of them is sent [SIGKILL]. *)
Theorem kill_descendants_overflow_warns (t : Z) (names : list string)
    (w : World) :
  opendir_proc w = DirEntries names ->
  let all := filter (is_listed_descendant w t) (proc_pids names) in
  let kept := firstn 1024 all in
  (1024 < List.length all)%nat ->
  collect_descendants w t (proc_pids names) [] =
    (kept,
     [Printf Stderr "Warning: Too many descendants; some may be missed\n" []])
  /\
  List.length kept = 1024%nat /\
  (exists rest,
     trace_of (kill_descendants t w) =
     Printf Stderr "Warning: Too many descendants; some may be missed\n" []
     :: trace_of (kill_collected kept w) ++ rest) /\
  (~ In getpid kept ->
   Forall (fun p => In (Kill p SIGKILL) (trace_of (kill_descendants t w)))
     kept).
Proof.
  intros Hdir all kept Hover.
  assert (Hc : collect_descendants w t (proc_pids names) []
               = (kept, overflow_warning)).
  { rewrite collect_descendants_firstn
      by (unfold MAX_DESCENDANTS; cbn [List.length]; lia).
    cbn [app]. fold all.
    change (firstn (Z.to_nat MAX_DESCENDANTS) all) with kept.
    destruct (Z.ltb_spec MAX_DESCENDANTS (Z.of_nat (List.length all)));
      [reflexivity|unfold MAX_DESCENDANTS in *; lia]. }
  pose proof (kill_descendants_trace t names w Hdir) as Ht.
  cbv zeta in Ht. rewrite Hc in Ht. cbn [fst snd] in Ht.
  split; [exact Hc|]. split; [apply firstn_length_le; lia|].
  split; [eexists; rewrite Ht; reflexivity|].
  intro Hnot. apply Forall_forall. intros p Hp.
  rewrite Ht. apply in_or_app. right. apply in_or_app. left.
  apply In_Kill_signals. rewrite kill_collected_signals.
  rewrite until_own_kill_all.
  - apply (in_map (fun q => (q, SIGKILL))). rewrite <- in_rev. exact Hp.
  - rewrite existsb_own_kill_map, existsb_rev.
    destruct (existsb (fun q => q =? getpid) kept) eqn:He; [|reflexivity].
    apply existsb_exists in He. destruct He as (q & Hq & Heq).
    apply Z.eqb_eq in Heq. subst q. contradiction.
Qed.

End Actions.

(** ** [main] *)

Section Main.

Context {World : Type} {OS : ProcOS World}.

(** C9: whatever the invocation, when the record of the root pid cannot be
    fetched the program exits with code 1 after printing on the standard
    error only: nothing is printed on the standard output, no signal is
    sent, and the world is as it was.  When the arguments pass the checks
    that come first, the only line printed is the error about the root. *)
Theorem main_stops_at_unfetched_root (argv : list string) (w : World) :
  let root_pid := LibC.atoi (nth 1 argv "") in
  let target_pid := LibC.atoi (nth 2 argv "") in
  fetch_fails w root_pid ->
  result_of (main argv w) = Some 1 /\
  world_of (main argv w) = w /\
  trace_of (main argv w) <> [] /\
  Forall is_stderr_print (trace_of (main argv w)) /\
  (3 <= Z.of_nat (List.length argv) <= 4 ->
   0 < root_pid -> 0 < target_pid ->
   trace_of (main argv w) =
   [Printf Stderr "Error: Root process %d does not exist or is inaccessible\n"
      [AInt root_pid]]).
Proof.
  intros root_pid target_pid Hf. unfold fetch_fails in Hf.
  unfold main, bind, emit, ret, observe, result_of, world_of, trace_of.
  fold root_pid target_pid.
  destruct (Z.ltb_spec (Z.of_nat (List.length argv)) 3) as [Hlo|Hlo];
    cbn [orb].
  { cbn [fst snd app]. repeat split; try discriminate;
      [repeat constructor|lia]. }
  destruct (Z.gtb_spec (Z.of_nat (List.length argv)) 4) as [Hhi|Hhi].
  { cbn [fst snd app]. repeat split; try discriminate;
      [repeat constructor|lia]. }
  destruct (Z.leb_spec root_pid 0) as [Hr|Hr]; cbn [orb].
  { cbn [fst snd app]. repeat split; try discriminate;
      [repeat constructor|lia]. }
  destruct (Z.leb_spec target_pid 0) as [Ht|Ht].
  { cbn [fst snd app]. repeat split; try discriminate;
      [repeat constructor|lia]. }
  rewrite Hf. cbn [Z.eqb fst snd app].
  repeat split; try discriminate; repeat constructor.
Qed.

End Main.

(** ** Runs on the simulated system *)

(** The hop bound: in a line of processes, the ancestor 1000 links above
    the target is found, the next one is not. *)
Example is_in_tree_hop_bound :
  is_in_tree Sim.ladder 1001 1 = true /\ is_in_tree Sim.ladder 1002 1 = false.
Proof. vm_compute. split; reflexivity. Qed.

(** The scenario of the family: children, grandchildren, zombie
    descendants and the defunct count of process 100. *)
Example family_listings :
  stdout_pids (list_immediate_descendants Sim.family 100) = [101; 102] /\
  stdout_pids (list_grandchildren Sim.family 100) = [103] /\
  stdout_pids (list_defunct_descendants Sim.family 100) = [102] /\
  count_defunct_descendants Sim.family 100 = ([], 1) /\
  stdout_pids (list_defunct_siblings Sim.family 101) = [102].
Proof. vm_compute. repeat split; reflexivity. Qed.

Lemma is_in_tree_iff_on_ancestor_chain_witness :
  (is_in_tree Sim.family 1 103 = true <->
   In 1 (ancestor_chain Sim.family 1000 103)) /\
  (is_in_tree Sim.family 1 103 = false <->
   ~ In 1 (ancestor_chain Sim.family 1000 103)).
Proof.
  apply (is_in_tree_iff_on_ancestor_chain Sim.family 1 103).
  intro H. vm_compute in H. discriminate H.
Defined.

Lemma is_in_tree_unfetched_target_witness :
  is_in_tree Sim.racy 1 4242 = false /\
  is_in_tree_reads Sim.racy 1 4242 = [4242].
Proof.
  apply (is_in_tree_unfetched_target Sim.racy 1 4242).
  - discriminate.
  - vm_compute. reflexivity.
Defined.

Lemma defunct_count_ge_zombie_listing_witness :
  let count := snd (count_defunct_descendants Sim.family 100) in
  let listed := stdout_pids (list_defunct_descendants Sim.family 100) in
  count >= Z.of_nat (List.length listed) /\
  (is_zombie (get_process_info Sim.family 100) = false ->
   count = Z.of_nat (List.length listed)) /\
  count = Z.of_nat (List.length listed)
          + Z.of_nat (count_occ Z.eq_dec
                        (filter (is_counted_zombie Sim.family 100)
                           (proc_pids (Sim.entries Sim.family))) 100).
Proof.
  apply (defunct_count_ge_zombie_listing Sim.family 100
           (Sim.entries Sim.family)).
  reflexivity.
Defined.

(** C8 on a record that names itself as parent: process 500 carries the
    command name [a S 500], so that [fscanf] takes [S] for its state and 500
    for its parent pid; the children listing and the grandchildren listing
    of 500 then print the same pids, 500 and 501. *)
Theorem grandchildren_children_overlap_renamed :
  Sim.files Sim.renamed 500 = Some "500 (a S 500) S 1 500 500 0 -1 4194560 0 0"
  /\
  get_process_info Sim.renamed 500 = mkInfo 500 500 "S" /\
  stdout_pids (list_immediate_descendants Sim.renamed 500) = [500; 501] /\
  stdout_pids (list_grandchildren Sim.renamed 500) = [500; 501] /\
  ~ grandchildren_children_disjoint Sim.renamed 500.
Proof.
  split; [vm_compute; reflexivity|]. split; [vm_compute; reflexivity|].
  split; [vm_compute; reflexivity|]. split; [vm_compute; reflexivity|].
  intro H. apply (H 500); vm_compute; now left.
Qed.

Lemma grandchildren_children_disjoint_if_not_own_parent_witness :
  grandchildren_children_disjoint Sim.family 100.
Proof.
  apply (grandchildren_children_disjoint_if_not_own_parent Sim.family 100).
  vm_compute. discriminate.
Defined.

(** C4 on the sibling listing: with target 1, whose parent pid is 0, the
    entry 4242 whose [stat] file cannot be opened is printed as a sibling,
    by the function and by the program run with [-lg]. *)
Theorem list_siblings_prints_failed_fetch :
  fetch_fails Sim.racy 4242 /\
  stdout_pids (list_siblings Sim.racy 1) = [2; 4242] /\
  stdout_pids (trace_of (main ["prog"; "1"; "1"; "-lg"] Sim.racy)) = [2; 4242] /\
  ~ siblings_omit_failed_fetches Sim.racy 1.
Proof.
  assert (Hf : fetch_fails Sim.racy 4242) by (vm_compute; reflexivity).
  assert (Hs : stdout_pids (list_siblings Sim.racy 1) = [2; 4242])
    by (vm_compute; reflexivity).
  split; [exact Hf|]. split; [exact Hs|].
  split; [vm_compute; reflexivity|].
  intro H. apply (H 4242); [rewrite Hs; right; now left|exact Hf].
Qed.

(** C3 on the report: 103 is a zombie descendant of 100 and the call of
    [kill] on its parent 101 fails; the run prints the failure and then
    that no zombie was found among the descendants of 100. *)
Theorem kill_zombie_parents_reports_no_zombie_after_failed_kill :
  is_counted_zombie Sim.guarded 100 103 = true /\
  trace_of (kill_zombie_parents 100 Sim.guarded) =
  [Kill 101 SIGKILL;
   Printf Stderr "Error: %s: %s\n"
     [ASnprintf "Failed to kill parent %d of zombie %d" [101; 103];
      AStrerror Sim.EPERM];
   Printf Stdout "No zombie processes found among descendants of %d\n"
     [AInt 100]].
Proof. vm_compute. split; reflexivity. Qed.

(** The order on the family: 101, 102, 103 are collected, and signalled
    as 103, 102, 101. *)
Example family_kill_order :
  fst (collect_descendants Sim.family 100
         (proc_pids (Sim.entries Sim.family)) []) = [101; 102; 103] /\
  signals (trace_of (kill_descendants 100 Sim.family)) =
  [(103, SIGKILL); (102, SIGKILL); (101, SIGKILL)].
Proof. vm_compute. split; reflexivity. Qed.

(** C7 on a target that is an ancestor of the program: started from the
    shell 100 as pid 104, the program collects 101, 102, 103 and its own
    pid 104; the reverse pass starts with 104, and the run ends in that
    call: 103, 102 and 101 are not signalled and the second scan is not
    reached. *)
Theorem kill_descendants_ends_at_own_pid :
  fst (collect_descendants (OS := Sim.os 104) Sim.launched 100
         (proc_pids (Sim.entries Sim.launched)) []) = [101; 102; 103; 104] /\
  trace_of (kill_descendants (OS := Sim.os 104) 100 Sim.launched)
  = [Kill 104 SIGKILL] /\
  result_of (kill_descendants (OS := Sim.os 104) 100 Sim.launched) = None /\
  trace_of (main (OS := Sim.os 104) ["prog"; "1"; "100"; "-sk"] Sim.launched)
  = [Kill 104 SIGKILL] /\
  result_of (main (OS := Sim.os 104) ["prog"; "1"; "100"; "-sk"] Sim.launched)
  = None.
Proof. vm_compute. repeat split; reflexivity. Qed.

(** C2 on an overflow with the program among the kept pids: of the 1030
    children of 10 the first 1024, pids 1000 to 2023, are kept and the
    warning is printed; the program is the child 1500, so the reverse pass
    signals 2023 down to 1500 and ends there: the kept pids 1000 to 1499
    are never sent [SIGKILL]. *)
Theorem kill_descendants_overflow_ends_at_own_pid :
  collect_descendants (OS := Sim.os 1500) Sim.crowd_with_prog 10
    (proc_pids (Sim.entries Sim.crowd_with_prog)) []
  = (map (fun i => 1000 + Z.of_nat i) (seq 0 1024),
     [Printf Stderr "Warning: Too many descendants; some may be missed\n" []])
  /\
  signals (trace_of (kill_descendants (OS := Sim.os 1500) 10 Sim.crowd_with_prog))
  = map (fun i => (2023 - Z.of_nat i, SIGKILL)) (seq 0 524) /\
  result_of (kill_descendants (OS := Sim.os 1500) 10 Sim.crowd_with_prog) = None /\
  ~ In (Kill 1000 SIGKILL)
      (trace_of (kill_descendants (OS := Sim.os 1500) 10 Sim.crowd_with_prog)).
Proof.
  assert (Hdir : opendir_proc (ProcOS := Sim.os 1500) Sim.crowd_with_prog
                 = DirEntries (Sim.entries Sim.crowd_with_prog)) by reflexivity.
  assert (Hc : collect_descendants (OS := Sim.os 1500) Sim.crowd_with_prog 10
                 (proc_pids (Sim.entries Sim.crowd_with_prog)) []
               = (map (fun i => 1000 + Z.of_nat i) (seq 0 1024),
                  [Printf Stderr
                     "Warning: Too many descendants; some may be missed\n"
                     []])).
  { rewrite collect_descendants_firstn
      by (unfold MAX_DESCENDANTS; cbn [List.length]; lia).
    vm_compute. reflexivity. }
  assert (Hs : signals
                 (trace_of (kill_descendants (OS := Sim.os 1500) 10 Sim.crowd_with_prog))
               = map (fun i => (2023 - Z.of_nat i, SIGKILL)) (seq 0 524)).
  { rewrite (kill_descendants_trace (OS := Sim.os 1500) 10
               (Sim.entries Sim.crowd_with_prog) Sim.crowd_with_prog Hdir).
    rewrite Hc. cbn [fst snd].
    rewrite !signals_app, kill_collected_signals.
    vm_compute. reflexivity. }
  split; [exact Hc|]. split; [exact Hs|]. split.
  - rewrite (kill_descendants_result (OS := Sim.os 1500) 10
               (Sim.entries Sim.crowd_with_prog) Sim.crowd_with_prog Hdir).
    rewrite Hc. cbn [fst]. vm_compute. reflexivity.
  - intro H.
    pose proof (proj1 (In_Kill_signals 1000 SIGKILL _) H) as Hin.
    rewrite Hs in Hin.
    destruct (proj1 (in_map_iff _ _ _) Hin) as (i & Heq & Hi).
    apply in_seq in Hi. apply (f_equal fst) in Heq. cbn [fst] in Heq. lia.
Qed.

Lemma kill_descendants_calls_witness :
  let collected :=
    firstn 1024 (filter (is_listed_descendant Sim.family 100)
                   (proc_pids (Sim.entries Sim.family))) in
  let calls := map (fun p => (p, SIGKILL)) (rev collected) in
  fst (collect_descendants Sim.family 100
         (proc_pids (Sim.entries Sim.family)) []) = collected /\
  signals (trace_of (kill_descendants 100 Sim.family)) =
    until_own_kill (World := Sim.world) calls
    ++ (if existsb (fun p => p =? @getpid Sim.world _) collected then []
        else signals (trace_of (rescan_descendants 100
                                  (world_of (kill_collected collected
                                               Sim.family))))) /\
  (~ In (@getpid Sim.world _) collected -> until_own_kill (World := Sim.world) calls = calls) /\
  (In (@getpid Sim.world _) collected -> result_of (kill_descendants 100 Sim.family) = None).
Proof.
  apply (kill_descendants_calls 100 (Sim.entries Sim.family) Sim.family).
  reflexivity.
Defined.

Lemma kill_descendants_overflow_warns_witness :
  let all := filter (is_listed_descendant Sim.crowd 10)
               (proc_pids (Sim.entries Sim.crowd)) in
  let kept := firstn 1024 all in
  collect_descendants Sim.crowd 10 (proc_pids (Sim.entries Sim.crowd)) [] =
    (kept,
     [Printf Stderr "Warning: Too many descendants; some may be missed\n" []])
  /\
  List.length kept = 1024%nat /\
  (exists rest,
     trace_of (kill_descendants 10 Sim.crowd) =
     Printf Stderr "Warning: Too many descendants; some may be missed\n" []
     :: trace_of (kill_collected kept Sim.crowd) ++ rest) /\
  (~ In (@getpid Sim.world _) kept ->
   Forall (fun p => In (Kill p SIGKILL) (trace_of (kill_descendants 10 Sim.crowd)))
     kept).
Proof.
  apply (kill_descendants_overflow_warns 10 (Sim.entries Sim.crowd) Sim.crowd).
  - reflexivity.
  - vm_compute. lia.
Defined.

Lemma main_stops_at_unfetched_root_witness :
  let argv := ["prog"; "77"; "100"; "-sk"] in
  result_of (main argv Sim.family) = Some 1 /\
  world_of (main argv Sim.family) = Sim.family /\
  trace_of (main argv Sim.family) <> [] /\
  Forall is_stderr_print (trace_of (main argv Sim.family)) /\
  (3 <= Z.of_nat (List.length argv) <= 4 ->
   0 < LibC.atoi (nth 1 argv "") -> 0 < LibC.atoi (nth 2 argv "") ->
   trace_of (main argv Sim.family) =
   [Printf Stderr "Error: Root process %d does not exist or is inaccessible\n"
      [AInt (LibC.atoi (nth 1 argv ""))]]).
Proof.
  apply (main_stops_at_unfetched_root ["prog"; "77"; "100"; "-sk"] Sim.family).
  vm_compute. reflexivity.
Defined.

(** ** More on tree membership *)

Section TreeMembershipFacts.

Context {World : Type} {OS : ProcOS World}.
Variable w : World.

Lemma is_in_tree_loop_reads_length (root_pid : Z) (fuel : nat) :
  forall current,
    (List.length (snd (is_in_tree_loop w root_pid fuel current)) <= fuel)%nat.
Proof.
  induction fuel as [|fuel IH]; intro current; cbn [is_in_tree_loop].
  - destruct (current =? 0); cbn; lia.
  - destruct (current =? 0); [cbn; lia|].
    destruct (current =? root_pid); [cbn; lia|].
    specialize (IH (ppid (get_process_info w current))).
    destruct (is_in_tree_loop w root_pid fuel
                (ppid (get_process_info w current))) as [r reads].
    cbn [snd List.length] in *. lia.
Qed.

(** X1: One call of [is_in_tree] reads at most 1001 records, whatever the
    parent links are, cycles included. *)
Theorem is_in_tree_reads_bounded (root_pid target_pid : Z) :
  Z.of_nat (List.length (is_in_tree_reads w root_pid target_pid)) <= 1001.
Proof.
  unfold is_in_tree_reads, is_in_tree_run.
  destruct (root_pid =? target_pid); [cbn; lia|].
  destruct (pid (get_process_info w target_pid) =? 0); [cbn; lia|].
  pose proof (is_in_tree_loop_reads_length root_pid MAX_ITERATIONS
                (ppid (get_process_info w target_pid))) as Hlen.
  destruct (is_in_tree_loop w root_pid MAX_ITERATIONS
              (ppid (get_process_info w target_pid))) as [r reads].
  cbn [snd List.length] in *.
  assert (Hmax : Z.of_nat MAX_ITERATIONS = 1000) by reflexivity.
  lia.
Qed.

Lemma is_in_tree_loop_root_zero (fuel : nat) :
  forall current, fst (is_in_tree_loop w 0 fuel current) = false.
Proof.
  induction fuel as [|fuel IH]; intro current.
  - apply is_in_tree_loop_O.
  - rewrite is_in_tree_loop_step.
    destruct (current =? 0); [reflexivity|apply IH].
Qed.

(** X2: Pid 0 is the ancestor of no other pid: the walk stops at a parent pid
    0 before comparing it with the root. *)
Theorem is_in_tree_root_zero (target_pid : Z) :
  target_pid <> 0 -> is_in_tree w 0 target_pid = false.
Proof.
  intro Hne. rewrite is_in_tree_unfold.
  destruct (Z.eqb_spec 0 target_pid) as [Heq|_]; [congruence|].
  destruct (pid (get_process_info w target_pid) =? 0); [reflexivity|].
  apply is_in_tree_loop_root_zero.
Qed.

(** A process whose record is fetched and names [t] as its parent is in
    the tree of [t], when [t] is not pid 0. *)
Lemma is_in_tree_child (t p : Z) :
  t <> 0 -> ~ fetch_fails w p -> parent_link w p = t ->
  is_in_tree w t p = true.
Proof.
  intros Ht Hf Hp. rewrite is_in_tree_unfold. unfold fetch_fails in Hf.
  destruct (t =? p); [reflexivity|].
  destruct (Z.eqb_spec (pid (get_process_info w p)) 0); [contradiction|].
  change MAX_ITERATIONS with (S (Nat.pred MAX_ITERATIONS)).
  rewrite is_in_tree_loop_step, Hp.
  destruct (Z.eqb_spec t 0); [contradiction|].
  now rewrite Z.eqb_refl.
Qed.

(** X3: Every pid the children listing prints is in the tree of the target,
    when the target is not pid 0. *)
Theorem children_are_in_tree (t p : Z) :
  t <> 0 ->
  In p (stdout_pids (list_immediate_descendants w t)) ->
  is_in_tree w t p = true.
Proof.
  intros Ht Hin.
  destruct (opendir_proc w) as [names|e] eqn:Hdir.
  - rewrite (list_immediate_descendants_pids w t names Hdir) in Hin.
    apply filter_In in Hin. destruct Hin as [_ Hin].
    apply andb_prop in Hin. destruct Hin as [Hf Hp].
    apply is_in_tree_child; [assumption| |lia].
    unfold fetch_fails. intro H0. rewrite H0 in Hf. discriminate.
  - unfold list_immediate_descendants in Hin. rewrite Hdir in Hin.
    destruct Hin.
Qed.

(** [is_in_tree] depends on the world through the pids and parent pids of
    the records only. *)
Lemma is_in_tree_loop_same_links (w2 : World) (root_pid : Z) (fuel : nat) :
  same_links w w2 ->
  forall current,
    is_in_tree_loop w root_pid fuel current
    = is_in_tree_loop w2 root_pid fuel current.
Proof.
  intro Hsame. induction fuel as [|fuel IH]; intro current;
    cbn [is_in_tree_loop]; [reflexivity|].
  destruct (Hsame current) as [_ Hpp]. rewrite Hpp, IH. reflexivity.
Qed.

Lemma is_in_tree_same_links (w2 : World) (root_pid target_pid : Z) :
  same_links w w2 ->
  is_in_tree w root_pid target_pid = is_in_tree w2 root_pid target_pid.
Proof.
  intro Hsame. unfold is_in_tree, is_in_tree_run.
  destruct (Hsame target_pid) as [Hp Hpp].
  rewrite Hp, Hpp,
    (is_in_tree_loop_same_links w2 root_pid MAX_ITERATIONS Hsame).
  reflexivity.
Qed.

Lemma is_listed_descendant_same_links (w2 : World) (t p : Z) :
  same_links w w2 ->
  is_listed_descendant w t p = is_listed_descendant w2 t p.
Proof.
  intro Hsame. unfold is_listed_descendant.
  destruct (Hsame p) as [Hp _].
  now rewrite Hp, (is_in_tree_same_links w2 t p Hsame).
Qed.

End TreeMembershipFacts.

(** ** More on the listings *)

Lemma signals_scan {A : Type} (body : A -> trace) (l : list A) :
  (forall x, signals (body x) = []) -> signals (flat_map body l) = [].
Proof.
  intro Hbody. induction l as [|x l IH]; [reflexivity|].
  cbn [flat_map]. now rewrite signals_app, Hbody, IH.
Qed.

Section ListingFacts.

Context {World : Type} {OS : ProcOS World}.
Variable w : World.

(** X4: The sibling listing never prints the target, and every pid it prints
    has the parent pid read for the target. *)
Theorem siblings_share_parent_exclude_target (t p : Z) :
  In p (stdout_pids (list_siblings w t)) ->
  p <> t /\ parent_link w p = parent_link w t.
Proof.
  intro Hin. unfold list_siblings in Hin. cbv zeta in Hin.
  destruct (Z.eqb_spec (pid (get_process_info w t)) 0) as [|Hf];
    [destruct Hin|].
  destruct (opendir_proc w) as [names|e] eqn:Hdir; [|destruct Hin].
  rewrite (stdout_pids_scan_ext _
             (fun q => negb (q =? t) && (parent_link w q =? parent_link w t)))
    in Hin.
  - apply filter_In in Hin. destruct Hin as [_ Hin].
    apply andb_prop in Hin. destruct Hin as [Hne Hp].
    split; [|lia]. destruct (Z.eqb_spec p t); [discriminate|assumption].
  - intro q. unfold parent_link. destruct (q =? t); reflexivity.
Qed.

(** X5: The zombie siblings are the siblings whose record is in state Z, in
    the same order. *)
Theorem defunct_siblings_are_zombie_siblings (t : Z) :
  stdout_pids (list_defunct_siblings w t) =
  filter (fun p => is_zombie (get_process_info w p))
    (stdout_pids (list_siblings w t)).
Proof.
  unfold list_defunct_siblings, list_siblings. cbv zeta.
  destruct (pid (get_process_info w t) =? 0); [reflexivity|].
  destruct (opendir_proc w) as [names|e]; [|reflexivity].
  rewrite (stdout_pids_scan_ext _
             (fun q => negb (q =? t)
                       && ((parent_link w q =? parent_link w t)
                           && is_zombie (get_process_info w q)))).
  - rewrite (stdout_pids_scan_ext _
               (fun q => negb (q =? t)
                         && (parent_link w q =? parent_link w t))).
    + induction (proc_pids names) as [|q l IH]; [reflexivity|].
      cbn [filter].
      destruct (q =? t); cbn [negb andb]; [exact IH|].
      destruct (parent_link w q =? parent_link w t); cbn [andb filter];
        [|exact IH].
      destruct (is_zombie (get_process_info w q)); [f_equal|]; exact IH.
    + intro q. unfold parent_link. destruct (q =? t); reflexivity.
  - intro q. unfold parent_link. destruct (q =? t); reflexivity.
Qed.

(** X6: Every pid the zombie descendant listing prints was fetched, is in the
    tree of the target, is in state Z and is not the target. *)
Theorem defunct_descendants_sound (t p : Z) :
  In p (stdout_pids (list_defunct_descendants w t)) ->
  ~ fetch_fails w p /\ is_in_tree w t p = true /\
  is_zombie (get_process_info w p) = true /\ p <> t.
Proof.
  intro Hin.
  destruct (opendir_proc w) as [names|e] eqn:Hdir.
  - rewrite (list_defunct_descendants_pids w t names Hdir) in Hin.
    apply filter_In in Hin. destruct Hin as [_ Hin].
    unfold is_counted_zombie, fetch_fails in *.
    destruct (Z.eqb_spec (pid (get_process_info w p)) 0); [discriminate|].
    destruct (is_in_tree w t p); [|discriminate].
    destruct (is_zombie (get_process_info w p)); [|discriminate].
    destruct (Z.eqb_spec p t); [discriminate|]. repeat split; assumption.
  - unfold list_defunct_descendants in Hin. rewrite Hdir in Hin.
    destruct Hin.
Qed.

(** X7: The descendants of [t] in the directory, [t] excluded, are split by
    [-id] and [-ds]: such an entry is printed by the children listing when
    its record names [t] as parent and by the non-direct listing when it
    does not, and no entry is printed by both. *)
Theorem descendants_split_direct_non_direct (t : Z) (names : list string) :
  opendir_proc w = DirEntries names ->
  t <> 0 ->
  forall p,
    (In p (filter (is_listed_descendant w t) (proc_pids names)) <->
     (In p (stdout_pids (list_immediate_descendants w t)) /\ p <> t) \/
     In p (stdout_pids (list_non_direct_descendants w t t))) /\
    ~ (In p (stdout_pids (list_immediate_descendants w t)) /\
       In p (stdout_pids (list_non_direct_descendants w t t))).
Proof.
  intros Hdir Ht p.
  rewrite (list_immediate_descendants_pids w t names Hdir).
  rewrite (list_non_direct_descendants_pids w t t names Hdir).
  rewrite !filter_In. split; [split|].
  - intros [Hin Hd].
    destruct (Z.eqb_spec (parent_link w p) t) as [Hp|Hp].
    + left. unfold is_listed_descendant in Hd.
      destruct (pid (get_process_info w p) =? 0); [discriminate|].
      destruct (Z.eqb_spec p t); [rewrite andb_false_r in Hd; discriminate|].
      repeat split; assumption.
    + right. split; [assumption|]. now rewrite Hd.
  - intros [[[Hin Hc] Hne]|[Hin Hn]].
    + split; [assumption|]. apply andb_prop in Hc. destruct Hc as [Hf Hp].
      unfold is_listed_descendant. rewrite Hf. cbn [andb].
      rewrite is_in_tree_child; [| assumption | | lia].
      * destruct (Z.eqb_spec p t); [contradiction|reflexivity].
      * unfold fetch_fails. intro H0. rewrite H0 in Hf. discriminate.
    + split; [assumption|]. apply andb_prop in Hn. tauto.
  - intros [[_ Hc] [_ Hn]].
    apply andb_prop in Hc. destruct Hc as [_ Hc].
    apply andb_prop in Hn. destruct Hn as [_ Hn].
    rewrite Hc in Hn. discriminate.
Qed.

(** The inner scan of the grandchildren listing, as a filter. *)
Lemma list_grandchildren_loop_In_iff (t g : Z) (names : list string)
    (pids : list Z) :
  opendir_proc w = DirEntries names ->
  In g (stdout_pids (list_grandchildren_loop w t pids)) <->
  exists c, In c pids /\ parent_link w c = t /\
            In g (proc_pids names) /\ parent_link w g = c.
Proof.
  intro Hdir. induction pids as [|c pids IH]; cbn [list_grandchildren_loop].
  - split; [intros []|intros (c & [] & _)].
  - cbv zeta. fold (parent_link w c). rewrite Hdir.
    destruct (Z.eqb_spec (parent_link w c) t) as [Hc|Hc]; cbn [negb].
    + rewrite stdout_pids_app, in_app_iff, IH.
      rewrite (stdout_pids_scan_ext _ (fun q => parent_link w q =? c))
        by reflexivity.
      rewrite filter_In. split.
      * intros [[Hin Hg]|(c' & Hc' & H1 & H2)].
        -- exists c. split; [now left|]. repeat split; [assumption..|lia].
        -- exists c'. split; [now right|]. tauto.
      * intros (c' & [<-|Hc'] & H1 & H2 & H3).
        -- left. split; [assumption|lia].
        -- right. exists c'. repeat split; assumption.
    + rewrite IH. split.
      * intros (c' & Hc' & H). exists c'. split; [now right|assumption].
      * intros (c' & [<-|Hc'] & H1 & H).
        -- contradiction.
        -- exists c'. tauto.
Qed.

(** X8: On a snapshot, the grandchildren listing prints [g] exactly when the
    directory has an entry [c] whose record names the target as parent and
    the record of the entry [g] names [c] as parent. *)
Theorem grandchildren_iff_child_of_child (t g : Z) (names : list string) :
  opendir_proc w = DirEntries names ->
  In g (stdout_pids (list_grandchildren w t)) <->
  exists c, In c (proc_pids names) /\ parent_link w c = t /\
            In g (proc_pids names) /\ parent_link w g = c.
Proof.
  intro Hdir. unfold list_grandchildren. rewrite Hdir.
  apply list_grandchildren_loop_In_iff. exact Hdir.
Qed.

(** X9: The defunct count is -1 exactly when [/proc] cannot be opened, with
    the error on the standard error; otherwise it lies between 0 and the
    number of numeric entries and nothing is printed. *)
Theorem count_defunct_descendants_range (t : Z) :
  match opendir_proc w with
  | DirError e =>
      count_defunct_descendants w t =
      ([Printf Stderr "Error: %s: %s\n"
          [AStr "Cannot access /proc directory"; AStrerror e]], -1)
  | DirEntries names =>
      fst (count_defunct_descendants w t) = [] /\
      0 <= snd (count_defunct_descendants w t)
        <= Z.of_nat (List.length (proc_pids names))
  end.
Proof.
  unfold count_defunct_descendants.
  destruct (opendir_proc w) as [names|e]; [|reflexivity].
  cbn [fst snd]. rewrite count_defunct_loop_filter.
  split; [reflexivity|]. split; [lia|apply filter_length_le_Z].
Qed.

(** No listing calls [kill]. *)
Lemma listings_send_no_signal (t parent : Z) :
  signals (print_basic_info w t) = [] /\
  signals (fst (count_defunct_descendants w t)) = [] /\
  signals (list_non_direct_descendants w t parent) = [] /\
  signals (list_immediate_descendants w t) = [] /\
  signals (list_siblings w t) = [] /\
  signals (list_defunct_siblings w t) = [] /\
  signals (list_defunct_descendants w t) = [] /\
  signals (list_grandchildren w t) = [] /\
  signals (print_status w t) = [].
Proof.
  unfold print_basic_info, count_defunct_descendants,
    list_non_direct_descendants, list_immediate_descendants, list_siblings,
    list_defunct_siblings, list_defunct_descendants, list_grandchildren,
    print_status.
  cbv zeta.
  assert (Hloop : forall pids,
             signals (list_grandchildren_loop w t pids) = []).
  { induction pids as [|c pids IH]; [reflexivity|].
    cbn [list_grandchildren_loop]. cbv zeta.
    destruct (negb _); [exact IH|].
    destruct (opendir_proc w); [|reflexivity].
    rewrite signals_app, IH, app_nil_r. apply signals_scan.
    intro g. destruct (_ =? _); reflexivity. }
  destruct (pid (get_process_info w t) =? 0);
    destruct (opendir_proc w) as [names|e]; cbn [fst];
    repeat split; try reflexivity; try apply Hloop;
    apply signals_scan; intro q;
    repeat match goal with
      | |- context [if ?b then _ else _] => destruct b
      end; reflexivity.
Qed.

End ListingFacts.

(** ** More on the signal operations *)

Section ActionFacts.

Context {World : Type} {OS : ProcOS World}.

(** X10: [kill_zombie_parents] sends nothing but [SIGKILL], and never to pid 0,
    which would address the process group of the caller. *)
Theorem kill_zombie_parents_signals (t : Z) (w : World) :
  Forall (fun s => fst s <> 0 /\ snd s = SIGKILL)
    (signals (trace_of (kill_zombie_parents t w))).
Proof.
  unfold kill_zombie_parents. rewrite bind_observe.
  destruct (opendir_proc w) as [names|e]; [|constructor].
  rewrite trace_of_bind, signals_app. apply Forall_app. split.
  - apply foldA_signals_Forall. intros k p w'.
    rewrite kill_zombie_parents_body_signals.
    destruct (is_counted_zombie w' t p); cbn [andb]; [|constructor].
    destruct (Z.eqb_spec (parent_link w' p) 0); cbn [negb]; constructor;
      [split; [assumption|reflexivity]|constructor].
  - destruct (result_of _) as [killed_any|]; [|constructor].
    destruct (negb killed_any); constructor.
Qed.

(** X12: [stop_descendants] sends nothing but [SIGSTOP], and never to the
    target. *)
Theorem stop_descendants_signals (t : Z) (w : World) :
  Forall (fun s => fst s <> t /\ snd s = SIGSTOP)
    (signals (trace_of (stop_descendants t w))).
Proof.
  unfold stop_descendants. rewrite bind_observe.
  destruct (opendir_proc w) as [names|e]; [|constructor].
  unfold forA. apply foldA_signals_Forall. intros u p w'.
  rewrite bind_observe.
  destruct (pid (get_process_info w' p) =? 0); [constructor|].
  rewrite bind_observe.
  destruct (is_in_tree w' t p); cbn [andb]; [|constructor].
  destruct (Z.eqb_spec p t) as [|Hne]; cbn [negb]; [constructor|].
  destruct (kill_report_run p SIGSTOP
              (fun errnum =>
                 print_error (AStr "Failed to stop descendant process") errnum)
              [Printf Stdout "Stopped descendant %d\n" [AInt p]] w'
              (fun _ => eq_refl) eq_refl) as (Hs & _).
  cbv zeta in Hs. rewrite Hs.
  constructor; [split; [assumption|reflexivity]|constructor].
Qed.

(** X14: [continue_descendants] sends nothing but [SIGCONT], and never to the
    target. *)
Theorem continue_descendants_signals (t : Z) (w : World) :
  Forall (fun s => fst s <> t /\ snd s = SIGCONT)
    (signals (trace_of (continue_descendants t w))).
Proof.
  unfold continue_descendants. rewrite bind_observe.
  destruct (opendir_proc w) as [names|e]; [|constructor].
  unfold forA. apply foldA_signals_Forall. intros u p w'.
  rewrite bind_observe.
  destruct (pid (get_process_info w' p) =? 0); [constructor|].
  rewrite bind_observe.
  destruct (is_in_tree w' t p); cbn [andb]; [|constructor].
  destruct (Z.eqb_spec p t) as [|Hne]; cbn [negb andb]; [constructor|].
  destruct (is_stopped (get_process_info w' p)); [|constructor].
  destruct (kill_report_run p SIGCONT
              (fun errnum =>
                 print_error (AStr "Failed to continue descendant process")
                   errnum)
              [Printf Stdout "Continued descendant %d\n" [AInt p]] w'
              (fun _ => eq_refl) eq_refl) as (Hs & _).
  cbv zeta in Hs. rewrite Hs.
  constructor; [split; [assumption|reflexivity]|constructor].
Qed.

(** X15: [kill_descendants] sends nothing but [SIGKILL]. *)
Theorem kill_descendants_only_sigkill (t : Z) (w : World) :
  Forall (fun s => snd s = SIGKILL)
    (signals (trace_of (kill_descendants t w))).
Proof.
  destruct (opendir_proc w) as [names|e] eqn:Hdir.
  - rewrite (kill_descendants_trace t names w Hdir).
    rewrite !signals_app, !Forall_app. split; [|split].
    + rewrite collect_descendants_firstn
        by (unfold MAX_DESCENDANTS; cbn [List.length]; lia).
      cbn [snd]. destruct (_ <? _); constructor.
    + rewrite kill_collected_signals. apply Forall_forall. intros s Hs.
      apply until_own_kill_In, in_map_iff in Hs.
      destruct Hs as (p & <- & _). reflexivity.
    + destruct (existsb _ _); [constructor|].
      eapply Forall_impl; [|apply rescan_descendants_signals].
      intros s [_ Hs]. exact Hs.
  - unfold kill_descendants. rewrite bind_observe, Hdir. constructor.
Qed.

(** X18: When [/proc] cannot be opened, each of the four bulk operations prints
    the error on the standard error and returns: no signal is sent and the
    world is as it was. *)
Theorem bulk_operations_without_proc (t e : Z) (w : World) :
  opendir_proc w = DirError e ->
  kill_zombie_parents t w = (Some tt, w, proc_dir_error e) /\
  kill_descendants t w = (Some tt, w, proc_dir_error e) /\
  stop_descendants t w = (Some tt, w, proc_dir_error e) /\
  continue_descendants t w = (Some tt, w, proc_dir_error e) /\
  signals (proc_dir_error e) = [] /\
  Forall is_stderr_print (proc_dir_error e) /\
  proc_dir_error e =
  [Printf Stderr "Error: %s: %s\n"
     [AStr "Cannot access /proc directory"; AStrerror e]].
Proof.
  intro Hdir.
  unfold kill_zombie_parents, kill_descendants, stop_descendants,
    continue_descendants, bind, observe, emit.
  rewrite Hdir. repeat split; repeat constructor.
Qed.

(** X16: When the descendants met fit in the array, the first pass collects all
    of them, in directory order, and prints no warning. *)
Theorem collect_descendants_complete (t : Z) (pids : list Z) (w : World) :
  Z.of_nat (List.length (filter (is_listed_descendant w t) pids)) <= 1024 ->
  collect_descendants w t pids [] =
  (filter (is_listed_descendant w t) pids, []).
Proof.
  intro Hfit.
  rewrite collect_descendants_firstn
    by (unfold MAX_DESCENDANTS; cbn [List.length]; lia).
  cbn [app]. unfold MAX_DESCENDANTS.
  rewrite firstn_all2 by lia.
  destruct (Z.ltb_spec 1024
              (Z.of_nat (List.length (filter (is_listed_descendant w t) pids))));
    [lia|reflexivity].
Qed.

(** The count of the second scan: [missed] grows by one with each call of
    [kill], and the scan ends with the call that hits the program itself. *)
Lemma rescan_body_count (t missed p : Z) (w : World) :
  let run := rescan_body t missed p w in
  result_of run =
  if existsb own_kill (signals (trace_of run)) then None
  else Some (missed + Z.of_nat (List.length (signals (trace_of run)))).
Proof.
  cbv zeta. unfold rescan_body. rewrite bind_observe.
  destruct (pid (get_process_info w p) =? 0);
    [cbn; now rewrite Z.add_0_r|].
  rewrite bind_observe.
  destruct (is_in_tree w t p && negb (p =? t));
    [|cbn; now rewrite Z.add_0_r].
  unfold bind, kill, emit, ret, own_kill, trace_of, result_of.
  destruct (sys_kill w p SIGKILL) as [[errnum|] w'];
    destruct ((p =? getpid) && (SIGKILL =? SIGKILL)) eqn:Hown;
    cbn [fst snd app signals flat_map existsb List.length orb];
    rewrite ?Hown; reflexivity.
Qed.

Lemma rescan_loop_count (t : Z) (pids : list Z) :
  forall (missed : Z) (w : World),
    let run := foldA (rescan_body t) missed pids w in
    result_of run =
    if existsb own_kill (signals (trace_of run)) then None
    else Some (missed + Z.of_nat (List.length (signals (trace_of run)))).
Proof.
  induction pids as [|p pids IH]; intros missed w; cbv zeta.
  - cbn. now rewrite Z.add_0_r.
  - rewrite result_of_foldA_cons, trace_of_foldA_cons, signals_app,
      existsb_app, length_app.
    pose proof (rescan_body_count t missed p w) as Hb. cbv zeta in Hb.
    rewrite Hb.
    destruct (existsb own_kill (signals (trace_of (rescan_body t missed p w))));
      [reflexivity|].
    cbn [orb]. specialize (IH (missed
         + Z.of_nat (List.length
                       (signals (trace_of (rescan_body t missed p w)))))
        (world_of (rescan_body t missed p w))).
    cbv zeta in IH. rewrite IH.
    destruct (existsb own_kill _); [reflexivity|].
    f_equal. lia.
Qed.

(** X17: The trace of the second scan of [kill_descendants]: nothing when
    [/proc] cannot be reopened; otherwise the trace of the loop, followed,
    unless the run has ended in it, by the note on the standard error when
    the loop has called [kill] at least once, with the number of these
    calls, and by nothing when it has called none. *)
Theorem rescan_reports_number_of_signals (t : Z) (w : World) :
  trace_of (rescan_descendants t w) =
  match opendir_proc w with
  | DirError _ => []
  | DirEntries names =>
      let scan := trace_of (foldA (rescan_body t) 0 (proc_pids names) w) in
      let n := Z.of_nat (List.length (signals scan)) in
      scan ++
      (if existsb own_kill (signals scan) then []
       else if n >? 0 then
         [Printf Stderr
            "Note: %d descendants were missed in first pass and killed in second\n"
            [AInt n]]
       else [])
  end.
Proof.
  unfold rescan_descendants. rewrite bind_observe.
  destruct (opendir_proc w) as [names|e]; [|reflexivity].
  cbv zeta. rewrite trace_of_bind. f_equal.
  pose proof (rescan_loop_count t (proc_pids names) 0 w) as Hc.
  cbv zeta in Hc. rewrite Hc, Z.add_0_l.
  destruct (existsb own_kill _); [reflexivity|].
  destruct (_ >? 0); reflexivity.
Qed.

(** X13: When [SIGSTOP] leaves the process tree as it is, [stop_descendants]
    calls [kill] with [SIGSTOP] once for each descendant of the target in
    the directory, the target excluded, in directory order. *)
Theorem stop_descendants_reaches_all (t : Z) (names : list string)
    (w : World) :
  opendir_proc w = DirEntries names ->
  signal_keeps_links SIGSTOP ->
  signals (trace_of (stop_descendants t w)) =
  map (fun p => (p, SIGSTOP))
    (filter (is_listed_descendant w t) (proc_pids names)).
Proof.
  intros Hdir Hkeep. unfold stop_descendants. rewrite bind_observe, Hdir.
  unfold forA.
  match goal with |- context [foldA ?b tt _ _] => set (body := b) end.
  assert (Hbody : forall (u : unit) (p : Z) (w' : World),
             signals (trace_of (body u p w')) =
             (if is_listed_descendant w' t p then [(p, SIGSTOP)] else [])
             /\ result_of (body u p w') = Some tt
             /\ same_links (world_of (body u p w')) w').
  { intros u p w'. subst body. cbv beta.
    assert (Hrefl : same_links w' w') by (intro q; split; reflexivity).
    unfold is_listed_descendant. rewrite bind_observe.
    destruct (pid (get_process_info w' p) =? 0); cbn [negb andb];
      [split; [reflexivity|split; [reflexivity|exact Hrefl]]|].
    rewrite bind_observe.
    destruct (is_in_tree w' t p && negb (p =? t));
      [|split; [reflexivity|split; [reflexivity|exact Hrefl]]].
    destruct (kill_report_run p SIGSTOP
                (fun errnum =>
                   print_error (AStr "Failed to stop descendant process")
                     errnum)
                [Printf Stdout "Stopped descendant %d\n" [AInt p]] w'
                (fun _ => eq_refl) eq_refl) as (Hs & Hr & Hw).
    cbv zeta in Hs, Hr, Hw. rewrite Hs, Hr, Hw.
    split; [reflexivity|]. split; [|apply Hkeep].
    unfold own_kill. cbn [fst snd]. now rewrite andb_false_r. }
  clearbody body.
  enough (Hgen : forall l (w' : World) (u : unit),
             same_links w' w ->
             signals (trace_of (foldA body u l w'))
             = map (fun p => (p, SIGSTOP))
                 (filter (is_listed_descendant w t) l))
    by (apply Hgen; intro q; split; reflexivity).
  induction l as [|p l IH]; intros w' u Hsame; [reflexivity|].
  rewrite trace_of_foldA_cons, signals_app. cbn [filter].
  destruct (Hbody u p w') as (Hsig & Hres & Hw). rewrite Hsig, Hres.
  rewrite (is_listed_descendant_same_links w' w t p Hsame).
  rewrite (IH (world_of (body u p w')) tt).
  - destruct (is_listed_descendant w t p); reflexivity.
  - intro q. destruct (Hw q), (Hsame q). split; congruence.
Qed.

End ActionFacts.

(** ** More on [kill_zombie_parents] *)

Section ZombieReport.

Context {World : Type} {OS : ProcOS World}.

Lemma kill_zombie_parents_body_flag (t : Z) (killed_any : bool) (p : Z)
    (w : World) :
  let run := kill_zombie_parents_body t killed_any p w in
  result_of run =
  if existsb own_kill (signals (trace_of run)) then None
  else Some (killed_any || existsb is_killed_parent_line (trace_of run)).
Proof.
  cbv zeta. unfold kill_zombie_parents_body. rewrite !bind_observe.
  destruct ((pid (get_process_info w p) =? 0) || negb (is_in_tree w t p));
    [cbn; now rewrite orb_false_r|].
  destruct (is_zombie (get_process_info w p)
            && negb (ppid (get_process_info w p) =? 0));
    [|cbn; now rewrite orb_false_r].
  cbv zeta.
  unfold bind, kill, emit, ret, own_kill, trace_of, result_of.
  destruct (sys_kill w (ppid (get_process_info w p)) SIGKILL)
    as [[errnum|] w'];
    destruct ((ppid (get_process_info w p) =? getpid) && (SIGKILL =? SIGKILL))
      eqn:Hown;
    cbn [fst snd app signals flat_map existsb orb is_killed_parent_line
           print_error String.eqb Ascii.eqb Bool.eqb];
    rewrite ?Hown, ?orb_false_r, ?orb_true_r; reflexivity.
Qed.

Lemma kill_zombie_parents_loop_flag (t : Z) (pids : list Z) :
  forall (killed_any : bool) (w : World),
    let run := foldA (kill_zombie_parents_body t) killed_any pids w in
    result_of run =
    if existsb own_kill (signals (trace_of run)) then None
    else Some (killed_any || existsb is_killed_parent_line (trace_of run)).
Proof.
  induction pids as [|p pids IH]; intros killed_any w; cbv zeta.
  - cbn. now rewrite orb_false_r.
  - rewrite result_of_foldA_cons, trace_of_foldA_cons, signals_app,
      !existsb_app.
    pose proof (kill_zombie_parents_body_flag t killed_any p w) as Hb.
    cbv zeta in Hb. rewrite Hb.
    destruct (existsb own_kill
                (signals (trace_of (kill_zombie_parents_body t killed_any p w))));
      [reflexivity|].
    cbn [orb]. rewrite IH.
    destruct (existsb own_kill _); [reflexivity|].
    now rewrite orb_assoc.
Qed.

(** X11: [kill_zombie_parents] closes with the line that no zombie was found
    exactly when no call of [kill] of the scan succeeded, whether or not a
    zombie was met; it prints no closing line when the run has ended in the
    scan, at a [SIGKILL] on the program's own pid. *)
Theorem kill_zombie_parents_closing_line (t : Z) (names : list string)
    (w : World) :
  opendir_proc w = DirEntries names ->
  let scan :=
    trace_of (foldA (kill_zombie_parents_body t) false (proc_pids names) w) in
  trace_of (kill_zombie_parents t w) =
  scan ++
  (if existsb own_kill (signals scan) then []
   else if existsb is_killed_parent_line scan then []
   else [Printf Stdout
           "No zombie processes found among descendants of %d\n" [AInt t]]).
Proof.
  intros Hdir scan. subst scan.
  unfold kill_zombie_parents. rewrite bind_observe, Hdir, trace_of_bind.
  f_equal.
  pose proof (kill_zombie_parents_loop_flag t (proc_pids names) false w)
    as Hflag.
  cbv zeta in Hflag. rewrite Hflag. cbn [orb].
  destruct (existsb own_kill _); [reflexivity|].
  destruct (existsb is_killed_parent_line _); reflexivity.
Qed.

End ZombieReport.

(** ** More on records *)

Lemma to_int_range (v : Z) : - 2 ^ 31 <= LibC.to_int v < 2 ^ 31.
Proof.
  unfold LibC.to_int.
  pose proof (Z.mod_pos_bound (v + 2 ^ 31) (2 ^ 32) eq_refl). lia.
Qed.

Lemma scan_int_range (s : string) (v : Z) (rest : string) :
  LibC.scan_int s = Some (v, rest) -> - 2 ^ 31 <= v < 2 ^ 31.
Proof.
  unfold LibC.scan_int.
  destruct (LibC.scan_long s) as [[x r]|]; [|discriminate].
  intro H. inversion H; subst. apply to_int_range.
Qed.

(** What [fscanf] leaves in the record: between 0 and 3 fields are stored;
    with none the record is as it was, with fewer than three the parent pid
    is as it was and with fewer than two the state also; the pid and the
    parent pid stored are values of an [int]. *)
Theorem fscanf_stat_fields (content : string) :
  let n := fst (fscanf_stat content blank_info) in
  let info := snd (fscanf_stat content blank_info) in
  0 <= n <= 3 /\
  (n = 0 -> info = blank_info) /\
  (n < 3 -> ppid info = 0) /\
  (n < 2 -> state info = state blank_info) /\
  - 2 ^ 31 <= pid info < 2 ^ 31 /\
  - 2 ^ 31 <= ppid info < 2 ^ 31.
Proof.
  cbv zeta. unfold fscanf_stat.
  destruct (LibC.scan_int content) as [[p r1]|] eqn:Hp;
    [|cbn; repeat split; try lia; reflexivity].
  apply scan_int_range in Hp.
  destruct (LibC.scan_skip_string (LibC.skip_ws r1)) as [r2|];
    [|cbn; repeat split; try lia; discriminate].
  destruct (LibC.scan_char (LibC.skip_ws r2)) as [[c r3]|];
    [|cbn; repeat split; try lia; discriminate].
  destruct (LibC.scan_int (LibC.skip_ws r3)) as [[pp r4]|] eqn:Hpp.
  - apply scan_int_range in Hpp. cbn. repeat split; try lia; discriminate.
  - cbn. repeat split; try lia; discriminate.
Qed.

Section RecordFacts.

Context {World : Type} {OS : ProcOS World}.

(** The record [get_process_info] returns is blank when the file cannot be
    opened, and is what [fscanf] left otherwise, whether or not all three
    fields were stored. *)
Theorem get_process_info_cases (w : World) (p : Z) :
  match fopen_stat w p with
  | None => get_process_info w p = blank_info
  | Some content =>
      get_process_info w p = snd (fscanf_stat content blank_info)
  end.
Proof.
  unfold get_process_info. cbv zeta.
  destruct (fopen_stat w p) as [content|]; [|reflexivity].
  destruct (fscanf_stat content blank_info) as [n info].
  destruct (negb (n =? 3)); reflexivity.
Qed.

(** The pid and parent pid of every record are values of an [int], and so
    is every pid a scan of the directory takes. *)
Theorem pids_are_ints (w : World) (p : Z) (names : list string) :
  - 2 ^ 31 <= pid (get_process_info w p) < 2 ^ 31 /\
  - 2 ^ 31 <= ppid (get_process_info w p) < 2 ^ 31 /\
  Forall (fun q => - 2 ^ 31 <= q < 2 ^ 31) (proc_pids names).
Proof.
  pose proof (get_process_info_cases w p) as Hc.
  destruct (fopen_stat w p) as [content|].
  - rewrite Hc.
    destruct (fscanf_stat_fields content) as (_ & _ & _ & _ & H1 & H2).
    split; [exact H1|]. split; [exact H2|].
    unfold proc_pids. apply Forall_map, Forall_forall. intros name _.
    unfold LibC.atoi. destruct (LibC.scan_long name) as [[v r]|];
      [apply to_int_range|lia].
  - rewrite Hc. cbn. split; [lia|]. split; [lia|].
    unfold proc_pids. apply Forall_map, Forall_forall. intros name _.
    unfold LibC.atoi. destruct (LibC.scan_long name) as [[v r]|];
      [apply to_int_range|lia].
Qed.

End RecordFacts.

Section PartialParse.

Context {World : Type} {OS : ProcOS World}.

(** X19: As soon as the first field of the [stat] file is read, the record
    carries it as pid, even when a later conversion fails; in that case the
    parent pid of the record is 0, so that the process counts as fetched and
    as having no parent. *)
Theorem get_process_info_keeps_partial_fields (w : World) (p : Z)
    (content rest : string) (v : Z) :
  fopen_stat w p = Some content ->
  LibC.scan_int content = Some (v, rest) ->
  pid (get_process_info w p) = v /\
  (fst (fscanf_stat content blank_info) < 3 -> parent_link w p = 0).
Proof.
  intros Hopen Hscan. unfold parent_link.
  pose proof (get_process_info_cases w p) as Hc. rewrite Hopen in Hc.
  rewrite Hc. unfold fscanf_stat. rewrite Hscan.
  destruct (LibC.scan_skip_string (LibC.skip_ws rest)) as [r2|];
    [|cbn; split; [reflexivity|reflexivity]].
  destruct (LibC.scan_char (LibC.skip_ws r2)) as [[c r3]|];
    [|cbn; split; [reflexivity|reflexivity]].
  destruct (LibC.scan_int (LibC.skip_ws r3)) as [[pp r4]|];
    cbn; (split; [reflexivity|]); [lia|reflexivity].
Qed.

End PartialParse.

(** ** More on [main] *)

Section MainFacts.

Context {World : Type} {OS : ProcOS World}.

Lemma result_of_then_ret {A : Type} (c : Act A) (z : Z) (w : World) :
  result_of (bind c (fun _ => ret z) w) =
  match result_of (c w) with Some _ => Some z | None => None end.
Proof.
  unfold bind, ret, result_of. destruct (c w) as [[[a|] w1] t1]; reflexivity.
Qed.

Lemma ended_ret {A : Type} (a : A) (w : World) :
  ended_by_own_kill (ret a w).
Proof. intro H. discriminate H. Qed.

Lemma ended_observe {A : Type} (f : World -> A) (w : World) :
  ended_by_own_kill (observe f w).
Proof. intro H. discriminate H. Qed.

Lemma ended_emit (t : trace) (w : World) : ended_by_own_kill (emit t w).
Proof. intro H. discriminate H. Qed.

Lemma ended_kill (p sig : Z) (w : World) : ended_by_own_kill (kill p sig w).
Proof.
  unfold ended_by_own_kill, kill, result_of, trace_of.
  destruct (sys_kill w p sig) as [r w'].
  destruct (Z.eqb_spec p getpid) as [->|]; [|discriminate].
  destruct (Z.eqb_spec sig SIGKILL) as [->|]; [|discriminate].
  intros _. exists []. reflexivity.
Qed.

Lemma ended_bind {A B : Type} (c : Act A) (k : A -> Act B) (w : World) :
  ended_by_own_kill (c w) ->
  (forall a w', ended_by_own_kill (k a w')) ->
  ended_by_own_kill (bind c k w).
Proof.
  unfold ended_by_own_kill. intros Hc Hk.
  rewrite result_of_bind, trace_of_bind.
  destruct (result_of (c w)) as [a|].
  - intro H. destruct (Hk a _ H) as [t0 Ht]. rewrite Ht.
    exists (trace_of (c w) ++ t0). now rewrite app_assoc.
  - intros _. destruct (Hc eq_refl) as [t0 Ht]. rewrite Ht, app_nil_r.
    exists t0. reflexivity.
Qed.

Lemma ended_foldA {A S : Type} (body : S -> A -> Act S) :
  (forall s x (w : World), ended_by_own_kill (body s x w)) ->
  forall l s (w : World), ended_by_own_kill (foldA body s l w).
Proof.
  intros Hbody l. induction l as [|x l IH]; intros s w.
  - apply ended_ret.
  - cbn [foldA]. apply ended_bind; [apply Hbody|intros; apply IH].
Qed.

(** Every run of the program that ends without returning ends in a
    [SIGKILL] on its own pid. *)
Ltac ended :=
  repeat first
    [ apply ended_ret | apply ended_observe | apply ended_emit
    | apply ended_kill
    | apply ended_bind; [|intros]
    | apply ended_foldA; intros
    | match goal with
      | |- ended_by_own_kill ((if ?b then _ else _) _) => destruct b
      | |- ended_by_own_kill ((match ?x with _ => _ end) _) => destruct x
      end ].

Lemma ended_bulk_operations (t : Z) (w : World) :
  ended_by_own_kill (kill_zombie_parents t w) /\
  ended_by_own_kill (kill_descendants t w) /\
  ended_by_own_kill (stop_descendants t w) /\
  ended_by_own_kill (continue_descendants t w).
Proof.
  unfold kill_zombie_parents, kill_descendants, stop_descendants,
    continue_descendants, kill_zombie_parents_body, kill_collected,
    rescan_descendants, rescan_body, forA.
  repeat split; ended.
Qed.

Lemma ended_run_option (root_pid target_pid : Z) (opt : string) (w : World) :
  ended_by_own_kill (run_option root_pid target_pid opt w).
Proof.
  unfold run_option.
  repeat match goal with
    | |- ended_by_own_kill ((if ?b then _ else _) _) => destruct b
    end;
    try (apply ended_bind;
         [apply ended_bulk_operations|intros; apply ended_ret]);
    ended.
Qed.

(** The branch of an option that is not one of the five signal options
    calls no [kill] and leaves the world as it is. *)
Lemma run_option_query (root_pid target_pid : Z) (opt : string) (w : World) :
  ~ In opt signal_options ->
  signals (trace_of (run_option root_pid target_pid opt w)) = [] /\
  world_of (run_option root_pid target_pid opt w) = w.
Proof.
  intro Hq.
  destruct (listings_send_no_signal w target_pid target_pid)
    as (_ & Hdc & Hds & Hid & Hlg & Hlz & Hdf & Hgc & Hdo).
  unfold run_option, LibC.streq.
  destruct (String.eqb_spec opt "-dc") as [_|_].
  { rewrite bind_observe. unfold bind, emit, ret, trace_of, world_of.
    destruct (count_defunct_descendants w target_pid) as [t count].
    cbn [fst] in Hdc. destruct (count >=? 0); cbn [fst snd];
      rewrite ?signals_app, Hdc; split; reflexivity. }
  destruct (String.eqb_spec opt "-ds") as [_|_].
  { rewrite bind_observe. unfold bind, emit, ret, trace_of, world_of.
    cbn [fst snd]. rewrite ?signals_app, Hds. split; reflexivity. }
  destruct (String.eqb_spec opt "-id") as [_|_].
  { rewrite bind_observe. unfold bind, emit, ret, trace_of, world_of.
    cbn [fst snd]. rewrite ?signals_app, Hid. split; reflexivity. }
  destruct (String.eqb_spec opt "-lg") as [_|_].
  { rewrite bind_observe. unfold bind, emit, ret, trace_of, world_of.
    cbn [fst snd]. rewrite ?signals_app, Hlg. split; reflexivity. }
  destruct (String.eqb_spec opt "-lz") as [_|_].
  { rewrite bind_observe. unfold bind, emit, ret, trace_of, world_of.
    cbn [fst snd]. rewrite ?signals_app, Hlz. split; reflexivity. }
  destruct (String.eqb_spec opt "-df") as [_|_].
  { rewrite bind_observe. unfold bind, emit, ret, trace_of, world_of.
    cbn [fst snd]. rewrite ?signals_app, Hdf. split; reflexivity. }
  destruct (String.eqb_spec opt "-gc") as [_|_].
  { rewrite bind_observe. unfold bind, emit, ret, trace_of, world_of.
    cbn [fst snd]. rewrite ?signals_app, Hgc. split; reflexivity. }
  destruct (String.eqb_spec opt "-do") as [_|_].
  { rewrite bind_observe. unfold bind, emit, ret, trace_of, world_of.
    cbn [fst snd]. rewrite ?signals_app, Hdo. split; reflexivity. }
  destruct (String.eqb_spec opt "--pz") as [E|_].
  { exfalso. apply Hq. rewrite E. cbn. tauto. }
  destruct (String.eqb_spec opt "-sk") as [E|_].
  { exfalso. apply Hq. rewrite E. cbn. tauto. }
  destruct (String.eqb_spec opt "-st") as [E|_].
  { exfalso. apply Hq. rewrite E. cbn. tauto. }
  destruct (String.eqb_spec opt "-dt") as [E|_].
  { exfalso. apply Hq. rewrite E. cbn. tauto. }
  destruct (String.eqb_spec opt "-rp") as [E|_].
  { exfalso. apply Hq. rewrite E. cbn. tauto. }
  split; reflexivity.
Qed.

(** The branch of an option returns 0 for each of the thirteen options,
    unless the run ends in it, and for any other string returns 1 after
    the two lines about the invalid option. *)
Lemma run_option_exit (root_pid target_pid : Z) (opt : string) (w : World) :
  (In opt valid_options /\
   (result_of (run_option root_pid target_pid opt w) = Some 0 \/
    result_of (run_option root_pid target_pid opt w) = None)) \/
  (~ In opt valid_options /\
   run_option root_pid target_pid opt w = (Some 1, w, invalid_option_lines opt)).
Proof.
  assert (Hthen : forall (c : Act unit),
             result_of (bind c (fun _ => ret 0) w) = Some 0 \/
             result_of (bind c (fun _ => ret 0) w) = None).
  { intro c. rewrite result_of_then_ret.
    destruct (result_of (c w)); [now left|now right]. }
  unfold run_option, LibC.streq.
  destruct (String.eqb_spec opt "-dc") as [E|N1].
  { left. split; [rewrite E; cbn; tauto|]. left.
    unfold bind, observe, emit, ret, result_of.
    destruct (count_defunct_descendants w target_pid) as [t count].
    destruct (count >=? 0); reflexivity. }
  destruct (String.eqb_spec opt "-ds") as [E|N2];
    [left; split; [rewrite E; cbn; tauto|left; reflexivity]|].
  destruct (String.eqb_spec opt "-id") as [E|N3];
    [left; split; [rewrite E; cbn; tauto|left; reflexivity]|].
  destruct (String.eqb_spec opt "-lg") as [E|N4];
    [left; split; [rewrite E; cbn; tauto|left; reflexivity]|].
  destruct (String.eqb_spec opt "-lz") as [E|N5];
    [left; split; [rewrite E; cbn; tauto|left; reflexivity]|].
  destruct (String.eqb_spec opt "-df") as [E|N6];
    [left; split; [rewrite E; cbn; tauto|left; reflexivity]|].
  destruct (String.eqb_spec opt "-gc") as [E|N7];
    [left; split; [rewrite E; cbn; tauto|left; reflexivity]|].
  destruct (String.eqb_spec opt "-do") as [E|N8];
    [left; split; [rewrite E; cbn; tauto|left; reflexivity]|].
  destruct (String.eqb_spec opt "--pz") as [E|N9];
    [left; split; [rewrite E; cbn; tauto|apply Hthen]|].
  destruct (String.eqb_spec opt "-sk") as [E|N10];
    [left; split; [rewrite E; cbn; tauto|apply Hthen]|].
  destruct (String.eqb_spec opt "-st") as [E|N11];
    [left; split; [rewrite E; cbn; tauto|apply Hthen]|].
  destruct (String.eqb_spec opt "-dt") as [E|N12];
    [left; split; [rewrite E; cbn; tauto|apply Hthen]|].
  destruct (String.eqb_spec opt "-rp") as [E|N13].
  { left. split; [rewrite E; cbn; tauto|].
    unfold bind, kill, emit, ret, result_of.
    destruct (sys_kill w root_pid SIGKILL) as [[errnum|] w'];
      destruct ((root_pid =? getpid) && (SIGKILL =? SIGKILL));
      cbn [fst snd]; tauto. }
  right. split; [|reflexivity].
  cbn. intros [H|[H|[H|[H|[H|[H|[H|[H|[H|[H|[H|[H|[H|[]]]]]]]]]]]]]];
    congruence.
Qed.

(** [main] as a cascade of its exits. *)
Lemma main_unfold (argv : list string) (w : World) :
  let argc := Z.of_nat (List.length argv) in
  let root_pid := LibC.atoi (nth 1 argv "") in
  let target_pid := LibC.atoi (nth 2 argv "") in
  main argv w =
  if (argc <? 3) || (argc >? 4) then
    (Some 1, w,
     [Printf Stderr "Error: Incorrect number of arguments\n" [];
      Printf Stderr "Usage: %s [root_process] [process_id] [Option]\n"
        [AStr (nth 0 argv "")];
      Printf Stderr "Example: %s 1234 5678 -id\n" [AStr (nth 0 argv "")]])
  else if (root_pid <=? 0) || (target_pid <=? 0) then
    (Some 1, w,
     [Printf Stderr "Error: Process IDs must be positive integers\n" [];
      Printf Stderr "Got root_pid=%d, target_pid=%d\n"
        [AInt root_pid; AInt target_pid]])
  else if pid (get_process_info w root_pid) =? 0 then
    (Some 1, w,
     [Printf Stderr
        "Error: Root process %d does not exist or is inaccessible\n"
        [AInt root_pid]])
  else if negb (is_in_tree w root_pid target_pid) then
    (Some 0, w,
     if argc =? 4 then
       [Printf Stdout
          "Notice: Process %d does not belong to the tree rooted at %d\n"
          [AInt target_pid; AInt root_pid]]
     else [])
  else if argc =? 4 then run_option root_pid target_pid (nth 3 argv "") w
  else (Some 0, w, print_basic_info w target_pid).
Proof.
  cbv zeta. unfold main. cbv zeta.
  destruct ((Z.of_nat (List.length argv) <? 3)
            || (Z.of_nat (List.length argv) >? 4)); [reflexivity|].
  destruct ((LibC.atoi (nth 1 argv "") <=? 0)
            || (LibC.atoi (nth 2 argv "") <=? 0)); [reflexivity|].
  rewrite bind_observe.
  destruct (pid (get_process_info w (LibC.atoi (nth 1 argv ""))) =? 0);
    [reflexivity|].
  rewrite bind_observe.
  destruct (is_in_tree w (LibC.atoi (nth 1 argv ""))
              (LibC.atoi (nth 2 argv ""))); cbn [negb].
  - destruct (Z.of_nat (List.length argv) =? 4); [reflexivity|].
    rewrite bind_observe. unfold bind, emit, ret. now rewrite app_nil_r.
  - destruct (Z.of_nat (List.length argv) =? 4); reflexivity.
Qed.

Lemma ended_main (argv : list string) (w : World) :
  ended_by_own_kill (main argv w).
Proof.
  rewrite main_unfold. cbv zeta.
  destruct (_ || _); [intro H; discriminate H|].
  destruct (_ || _); [intro H; discriminate H|].
  destruct (_ =? 0); [intro H; discriminate H|].
  destruct (negb _); [intro H; discriminate H|].
  destruct (_ =? 4); [apply ended_run_option|intro H; discriminate H].
Qed.

(** X21: a run of [main] returns 0, or returns 1, or does not return
    because it has ended in a [SIGKILL] that the program sent to its own
    pid, the last event of the run.  When it returns 1 it has printed on
    the standard error only, sent no signal and left the world as it
    was. *)
Theorem main_exit_code (argv : list string) (w : World) :
  result_of (main argv w) = Some 0 \/
  (result_of (main argv w) = Some 1 /\
   world_of (main argv w) = w /\
   signals (trace_of (main argv w)) = [] /\
   Forall is_stderr_print (trace_of (main argv w))) \/
  (result_of (main argv w) = None /\
   exists t0, trace_of (main argv w) = t0 ++ [Kill getpid SIGKILL]).
Proof.
  pose proof (ended_main argv w) as Hended. revert Hended.
  rewrite main_unfold. cbv zeta.
  destruct (_ || _);
    [intros _; right; left; cbn; repeat split; repeat constructor|].
  destruct (_ || _);
    [intros _; right; left; cbn; repeat split; repeat constructor|].
  destruct (_ =? 0);
    [intros _; right; left; cbn; repeat split; repeat constructor|].
  destruct (negb _); [intros _; left; reflexivity|].
  destruct (_ =? 4); [|intros _; left; reflexivity].
  intro Hended.
  destruct (run_option_exit (LibC.atoi (nth 1 argv ""))
              (LibC.atoi (nth 2 argv "")) (nth 3 argv "") w)
    as [[_ [H0|Hn]]|[_ H1]].
  - left. exact H0.
  - right. right. split; [exact Hn|]. apply Hended. exact Hn.
  - right. left. rewrite H1. cbn. repeat split; repeat constructor.
Qed.

(** X22: Unless the option is one of [--pz], [-sk], [-st], [-dt], [-rp], a run
    of [main] calls no [kill] and leaves the world as it is. *)
Theorem main_queries_send_no_signal (argv : list string) (w : World) :
  ~ In (nth 3 argv "") signal_options ->
  signals (trace_of (main argv w)) = [] /\ world_of (main argv w) = w.
Proof.
  intro Hq. rewrite main_unfold. cbv zeta.
  destruct (_ || _); [split; reflexivity|].
  destruct (_ || _); [split; reflexivity|].
  destruct (_ =? 0); [split; reflexivity|].
  destruct (negb _); [destruct (_ =? 4); split; reflexivity|].
  destruct (_ =? 4).
  - apply run_option_query. exact Hq.
  - destruct (listings_send_no_signal w (LibC.atoi (nth 2 argv "")) 0)
      as (Hb & _).
    split; [exact Hb|reflexivity].
Qed.

(** X23: Arguments that fail the checks at the head of [main] end the run with
    code 1 and lines on the standard error that do not depend on the world:
    nothing of [/proc] has been looked at. *)
Theorem main_rejects_bad_arguments (argv : list string) (w : World) :
  let argc := Z.of_nat (List.length argv) in
  ~ (3 <= argc <= 4 /\
     0 < LibC.atoi (nth 1 argv "") /\ 0 < LibC.atoi (nth 2 argv "")) ->
  result_of (main argv w) = Some 1 /\
  world_of (main argv w) = w /\
  trace_of (main argv w) <> [] /\
  Forall is_stderr_print (trace_of (main argv w)) /\
  forall w2 : World, trace_of (main argv w2) = trace_of (main argv w).
Proof.
  intros argc Hbad. subst argc.
  assert (Hcase :
    (Z.of_nat (List.length argv) <? 3) || (Z.of_nat (List.length argv) >? 4)
    = true \/
    ((Z.of_nat (List.length argv) <? 3) || (Z.of_nat (List.length argv) >? 4)
     = false /\
     (LibC.atoi (nth 1 argv "") <=? 0) || (LibC.atoi (nth 2 argv "") <=? 0)
     = true)).
  { destruct (Z.ltb_spec (Z.of_nat (List.length argv)) 3); [now left|].
    destruct (Z.gtb_spec (Z.of_nat (List.length argv)) 4); [now left|].
    right. split; [reflexivity|].
    destruct (Z.leb_spec (LibC.atoi (nth 1 argv "")) 0); [reflexivity|].
    destruct (Z.leb_spec (LibC.atoi (nth 2 argv "")) 0); [reflexivity|].
    exfalso. apply Hbad. lia. }
  assert (Hall : forall w1 : World,
             main argv w1 = (Some 1, w1, trace_of (main argv w)) /\
             trace_of (main argv w) <> [] /\
             Forall is_stderr_print (trace_of (main argv w))).
  { intro w1. rewrite !main_unfold. cbv zeta.
    destruct Hcase as [H1|[H1 H2]].
    - rewrite H1. cbn. split; [reflexivity|].
      split; [discriminate|repeat constructor].
    - rewrite H1, H2. cbn. split; [reflexivity|].
      split; [discriminate|repeat constructor]. }
  destruct (Hall w) as (Hw & Hne & Hst).
  split; [rewrite Hw; reflexivity|]. split; [rewrite Hw at 1; reflexivity|].
  split; [exact Hne|]. split; [exact Hst|].
  intro w2. destruct (Hall w2) as (Hw2 & _). rewrite Hw2. reflexivity.
Qed.

(** X24: A target outside the tree of the root ends the run with code 0 and no
    action on it: nothing is printed without an option, the notice alone
    with one, whatever the option is. *)
Theorem main_target_outside_tree (argv : list string) (w : World) :
  let argc := Z.of_nat (List.length argv) in
  let root_pid := LibC.atoi (nth 1 argv "") in
  let target_pid := LibC.atoi (nth 2 argv "") in
  3 <= argc <= 4 -> 0 < root_pid -> 0 < target_pid ->
  ~ fetch_fails w root_pid ->
  is_in_tree w root_pid target_pid = false ->
  main argv w =
  (Some 0, w,
   if argc =? 4 then
     [Printf Stdout
        "Notice: Process %d does not belong to the tree rooted at %d\n"
        [AInt target_pid; AInt root_pid]]
   else []).
Proof.
  intros argc root_pid target_pid Hargc Hr Ht Hf Hout.
  rewrite main_unfold. cbv zeta. fold argc root_pid target_pid.
  unfold fetch_fails in Hf. fold root_pid in Hf.
  destruct (Z.ltb_spec argc 3); [lia|].
  destruct (Z.gtb_spec argc 4); [lia|]. cbn [orb].
  destruct (Z.leb_spec root_pid 0); [lia|].
  destruct (Z.leb_spec target_pid 0); [lia|]. cbn [orb].
  destruct (Z.eqb_spec (pid (get_process_info w root_pid)) 0);
    [contradiction|].
  rewrite Hout. reflexivity.
Qed.

(** X25: With the option [-rp] and a target inside the tree of the root, the
    run calls [kill] once, on the root and with [SIGKILL]; it then returns
    0 whether or not the call succeeded, unless the root is the program
    itself, in which case the run ends in the call. *)
Theorem main_rp_kills_root (argv : list string) (w : World) :
  let root_pid := LibC.atoi (nth 1 argv "") in
  let target_pid := LibC.atoi (nth 2 argv "") in
  List.length argv = 4%nat -> nth 3 argv "" = "-rp" ->
  0 < root_pid -> 0 < target_pid ->
  ~ fetch_fails w root_pid ->
  is_in_tree w root_pid target_pid = true ->
  signals (trace_of (main argv w)) = [(root_pid, SIGKILL)] /\
  result_of (main argv w) = (if root_pid =? getpid then None else Some 0) /\
  world_of (main argv w) = snd (sys_kill w root_pid SIGKILL).
Proof.
  intros root_pid target_pid Hargc Hopt Hr Ht Hf Hin.
  rewrite main_unfold. cbv zeta. fold root_pid target_pid.
  unfold fetch_fails in Hf. fold root_pid in Hf.
  rewrite Hargc, Hopt. cbn [Z.of_nat Z.ltb Z.gtb Z.eqb Z.compare
                              Pos.of_succ_nat Pos.succ Pos.compare
                              Pos.compare_cont Pos.eqb orb].
  destruct (Z.leb_spec root_pid 0); [lia|].
  destruct (Z.leb_spec target_pid 0); [lia|]. cbn [orb].
  destruct (Z.eqb_spec (pid (get_process_info w root_pid)) 0);
    [contradiction|].
  rewrite Hin. cbn [negb].
  unfold run_option, LibC.streq. cbn [String.eqb Ascii.eqb Bool.eqb].
  unfold bind, kill, emit, ret, trace_of, result_of, world_of.
  destruct (sys_kill w root_pid SIGKILL) as [[errnum|] w'];
    destruct (root_pid =? getpid); cbn; repeat split; reflexivity.
Qed.

End MainFacts.

(** ** Further runs on the simulated system *)

(** On the simulated system a [SIGSTOP] changes no record. *)
Lemma sim_stop_keeps_links : @signal_keeps_links Sim.world Sim.sim_os SIGSTOP.
Proof.
  intros w p q. cbn. unfold Sim.sim_kill.
  destruct (Sim.files w p); [destruct (Sim.denied w p)|];
    cbn; split; reflexivity.
Qed.

(** The blank in the command name of 300 ends the parse after the state:
    300 is read with parent pid 0, and its child 301 is not found in the
    tree of 1. *)
Example browser_chain_is_cut :
  get_process_info Sim.browser 300 = mkInfo 300 0 "C" /\
  is_in_tree Sim.browser 1 301 = false.
Proof. vm_compute. split; reflexivity. Qed.

Lemma is_in_tree_root_zero_witness : is_in_tree Sim.family 0 100 = false.
Proof. apply (is_in_tree_root_zero Sim.family 100). discriminate. Defined.

Lemma children_are_in_tree_witness : is_in_tree Sim.family 100 101 = true.
Proof.
  apply (children_are_in_tree Sim.family 100 101).
  - discriminate.
  - vm_compute. now left.
Defined.

Lemma siblings_share_parent_exclude_target_witness :
  102 <> 101 /\ parent_link Sim.family 102 = parent_link Sim.family 101.
Proof.
  apply (siblings_share_parent_exclude_target Sim.family 101 102).
  vm_compute. now left.
Defined.

Lemma defunct_descendants_sound_witness :
  ~ fetch_fails Sim.family 102 /\ is_in_tree Sim.family 100 102 = true /\
  is_zombie (get_process_info Sim.family 102) = true /\ 102 <> 100.
Proof.
  apply (defunct_descendants_sound Sim.family 100 102).
  vm_compute. now left.
Defined.

Lemma descendants_split_direct_non_direct_witness :
  (In 103 (filter (is_listed_descendant Sim.family 100)
             (proc_pids (Sim.entries Sim.family))) <->
   (In 103 (stdout_pids (list_immediate_descendants Sim.family 100))
    /\ 103 <> 100) \/
   In 103 (stdout_pids (list_non_direct_descendants Sim.family 100 100))) /\
  ~ (In 103 (stdout_pids (list_immediate_descendants Sim.family 100)) /\
     In 103 (stdout_pids (list_non_direct_descendants Sim.family 100 100))).
Proof.
  apply (descendants_split_direct_non_direct Sim.family 100
           (Sim.entries Sim.family)).
  - reflexivity.
  - discriminate.
Defined.

Lemma grandchildren_iff_child_of_child_witness :
  In 103 (stdout_pids (list_grandchildren Sim.family 100)) <->
  exists c, In c (proc_pids (Sim.entries Sim.family)) /\
            parent_link Sim.family c = 100 /\
            In 103 (proc_pids (Sim.entries Sim.family)) /\
            parent_link Sim.family 103 = c.
Proof.
  apply (grandchildren_iff_child_of_child Sim.family 100 103
           (Sim.entries Sim.family)).
  reflexivity.
Defined.

Lemma bulk_operations_without_proc_witness :
  kill_zombie_parents 100 tt = (Some tt, tt, proc_dir_error NoProc.ENOENT) /\
  kill_descendants 100 tt = (Some tt, tt, proc_dir_error NoProc.ENOENT) /\
  stop_descendants 100 tt = (Some tt, tt, proc_dir_error NoProc.ENOENT) /\
  continue_descendants 100 tt = (Some tt, tt, proc_dir_error NoProc.ENOENT)
  /\
  signals (proc_dir_error NoProc.ENOENT) = [] /\
  Forall is_stderr_print (proc_dir_error NoProc.ENOENT) /\
  proc_dir_error NoProc.ENOENT =
  [Printf Stderr "Error: %s: %s\n"
     [AStr "Cannot access /proc directory"; AStrerror NoProc.ENOENT]].
Proof.
  apply (bulk_operations_without_proc 100 NoProc.ENOENT tt). reflexivity.
Defined.

Lemma collect_descendants_complete_witness :
  collect_descendants Sim.family 100 (proc_pids (Sim.entries Sim.family)) [] =
  (filter (is_listed_descendant Sim.family 100)
     (proc_pids (Sim.entries Sim.family)), []).
Proof.
  apply (collect_descendants_complete 100
           (proc_pids (Sim.entries Sim.family)) Sim.family).
  vm_compute. discriminate.
Defined.

Lemma stop_descendants_reaches_all_witness :
  signals (trace_of (stop_descendants 100 Sim.family)) =
  map (fun p => (p, SIGSTOP))
    (filter (is_listed_descendant Sim.family 100)
       (proc_pids (Sim.entries Sim.family))).
Proof.
  apply (stop_descendants_reaches_all 100 (Sim.entries Sim.family) Sim.family).
  - reflexivity.
  - exact sim_stop_keeps_links.
Defined.

(** On the family, the three descendants of 100 are stopped in directory
    order. *)
Example family_stop_order :
  signals (trace_of (stop_descendants 100 Sim.family)) =
  [(101, SIGSTOP); (102, SIGSTOP); (103, SIGSTOP)].
Proof. vm_compute. reflexivity. Qed.

Lemma kill_zombie_parents_closing_line_witness :
  let scan :=
    trace_of (foldA (kill_zombie_parents_body 100) false
                (proc_pids (Sim.entries Sim.guarded)) Sim.guarded) in
  trace_of (kill_zombie_parents 100 Sim.guarded) =
  scan ++
  (if existsb (own_kill (World := Sim.world)) (signals scan) then []
   else if existsb is_killed_parent_line scan then []
   else [Printf Stdout
           "No zombie processes found among descendants of %d\n" [AInt 100]]).
Proof.
  apply (kill_zombie_parents_closing_line 100 (Sim.entries Sim.guarded)
           Sim.guarded).
  reflexivity.
Defined.

Lemma get_process_info_keeps_partial_fields_witness :
  pid (get_process_info Sim.browser 300) = 300 /\
  (fst (fscanf_stat (Sim.stat_line 300 "Web Content" "S" 1) blank_info) < 3 ->
   parent_link Sim.browser 300 = 0).
Proof.
  apply (get_process_info_keeps_partial_fields Sim.browser 300
           (Sim.stat_line 300 "Web Content" "S" 1)
           " (Web Content) S 1 300 300 0 -1 4194560 0 0" 300).
  - vm_compute. reflexivity.
  - vm_compute. reflexivity.
Defined.

Lemma fetch_fails_blank_witness :
  get_process_info Sim.racy 4242 = blank_info.
Proof.
  apply (fetch_fails_blank Sim.racy 4242).
  - intros content rest H. vm_compute in H. discriminate H.
  - vm_compute. reflexivity.
Defined.

Lemma main_queries_send_no_signal_witness :
  signals (trace_of (main ["prog"; "1"; "100"; "-gc"] Sim.family)) = [] /\
  world_of (main ["prog"; "1"; "100"; "-gc"] Sim.family) = Sim.family.
Proof.
  apply (main_queries_send_no_signal ["prog"; "1"; "100"; "-gc"] Sim.family).
  cbn. intros [H|[H|[H|[H|[H|[]]]]]]; discriminate H.
Defined.

Lemma main_rejects_bad_arguments_witness :
  let argv := ["prog"; "abc"; "100"; "-sk"] in
  result_of (main argv Sim.family) = Some 1 /\
  world_of (main argv Sim.family) = Sim.family /\
  trace_of (main argv Sim.family) <> [] /\
  Forall is_stderr_print (trace_of (main argv Sim.family)) /\
  forall w2 : Sim.world,
    trace_of (main argv w2) = trace_of (main argv Sim.family).
Proof.
  apply (main_rejects_bad_arguments ["prog"; "abc"; "100"; "-sk"] Sim.family).
  vm_compute. intros [_ [H _]]. discriminate H.
Defined.

Lemma main_target_outside_tree_witness :
  main ["prog"; "100"; "200"; "-sk"] Sim.family =
  (Some 0, Sim.family,
   [Printf Stdout
      "Notice: Process %d does not belong to the tree rooted at %d\n"
      [AInt 200; AInt 100]]).
Proof.
  apply (main_target_outside_tree ["prog"; "100"; "200"; "-sk"] Sim.family).
  - vm_compute. split; discriminate.
  - vm_compute. reflexivity.
  - vm_compute. reflexivity.
  - vm_compute. discriminate.
  - vm_compute. reflexivity.
Defined.

Lemma main_rp_kills_root_witness :
  let argv := ["prog"; "1"; "100"; "-rp"] in
  signals (trace_of (main argv Sim.family)) = [(1, SIGKILL)] /\
  result_of (main argv Sim.family)
  = (if 1 =? @getpid Sim.world _ then None else Some 0) /\
  world_of (main argv Sim.family) = snd (sys_kill Sim.family 1 SIGKILL).
Proof.
  apply (main_rp_kills_root ["prog"; "1"; "100"; "-rp"] Sim.family).
  - reflexivity.
  - reflexivity.
  - vm_compute. reflexivity.
  - vm_compute. reflexivity.
  - vm_compute. discriminate.
  - vm_compute. reflexivity.
Defined.
